(** * Verification of the dynamic inventory generator
    [src/tools/dynamic_inventory/inventory.c]

    The program reads [hosts.ini] line by line and builds a jansson JSON
    tree.  This development embeds the C functions [find_dict],
    [convert_ini_line], [parse_hosts_ini], [host] and [main] as Rocq
    functions and proves what they compute.

    Modelling conventions.
    - A C string is a [string] of bytes; a buffer is cut at its first NUL
      by [Libc.cstr].
    - A [json_t *] is an [option json]: [None] is the NULL pointer.
    - jansson objects are finite maps ([gmap string _]); arrays are lists.
    - The objects that [parse_hosts_ini] keeps mutating through local
      pointers after linking them into [root] are kept in a store
      ([inventory]); [root] maps a key to the object it points to.
    - The copy of an attribute token on lines 97-98 is made into a block
      that was asked for without room for the terminator.  Whether the
      block has a spare byte is glibc's matter ([Libc.malloc_usable_size]);
      when it has none the key runs on into the bytes behind the block,
      which depend on the state of the heap.  They are an input of the
      model: the variable [behind] of the section [Heap], under which all
      of [inventory.c] is embedded.
    - Functional behaviour only: allocation failure, reference counts,
      damage an overrun does to the heap beyond the key that is read, the
      read of [line[-1]] on a chunk that starts with NUL, the read of the
      unassigned [sub_group] on lines 224 and 229 and the [printf]
      diagnostics of the parser are not represented.  [strtok_r] and
      [malloc] are glibc's on x86-64 (the save pointer is left on the
      terminating NUL when the input is exhausted). *)

From Stdlib Require Import ZArith NArith String Ascii List Bool Lia.
From stdpp Require Import base option list strings gmap.

(* ===================================================================== *)
(** ** The C library calls the program makes *)
(* ===================================================================== *)

Module Libc.

Definition NUL : ascii := "000"%char.
Definition LF : ascii := "010"%char.

(** The C string stored in a buffer: the bytes before the first NUL. *)
Fixpoint cstr (buf : string) : string :=
  match buf with
  | EmptyString => EmptyString
  | String c buf' =>
      if Ascii.eqb c NUL then EmptyString else String c (cstr buf')
  end.

(** [c] is one of the bytes of the delimiter string. *)
Fixpoint is_delim (delim : string) (c : ascii) : bool :=
  match delim with
  | EmptyString => false
  | String d delim' => Ascii.eqb c d || is_delim delim' c
  end.

(** [s + strspn(s, delim)] *)
Fixpoint skip_delims (delim s : string) : string :=
  match s with
  | EmptyString => EmptyString
  | String c s' => if is_delim delim c then skip_delims delim s' else s
  end.

(** The token of length [strcspn(s, delim)] at the head of [s], and what
    lies behind the delimiter that ends it ([None]: the token runs to the
    end of the string). *)
Fixpoint cut_token (delim s : string) : string * option string :=
  match s with
  | EmptyString => (EmptyString, None)
  | String c s' =>
      if is_delim delim c then (EmptyString, Some s')
      else let (tok, after) := cut_token delim s' in (String c tok, after)
  end.

(** [strtok_r(s, delim, &save)]: the token (NULL when there is none) and
    the new value of the save pointer. *)
Definition strtok_r (s delim : string) : option string * string :=
  match skip_delims delim s with
  | EmptyString => (None, EmptyString)
  | String _ _ as s1 =>
      let (tok, after) := cut_token delim s1 in
      (Some tok, default EmptyString after)
  end.

(** [strtok(s, delim)] with a non-NULL [s]: the first token. *)
Definition strtok (s delim : string) : option string :=
  fst (strtok_r s delim).

(** The token [strtok(s, delim)] finds runs to the end of [s]: [strtok]
    wrote no terminator of its own, the token ends where [s] does. *)
Definition strtok_at_end (s delim : string) : bool :=
  match cut_token delim (skip_delims delim s) with
  | (_, None) => true
  | (_, Some _) => false
  end.

(** The bytes of the block [malloc(n)] hands out: the chunk is [n + 8]
    rounded up to a multiple of 16, and at least 32, bytes, of which 8 hold
    its size. *)
Definition malloc_usable_size (n : nat) : nat :=
  Nat.max 32 (16 * ((n + 8 + 15) / 16)) - 8.

(** [strchr(s, c)]: NULL, or the position of the first [c], given as the
    bytes before it and the bytes after it. *)
Fixpoint strchr (s : string) (c : ascii) : option (string * string) :=
  match s with
  | EmptyString => None
  | String a s' =>
      if Ascii.eqb a c then Some (EmptyString, s')
      else match strchr s' c with
           | Some (before, after) => Some (String a before, after)
           | None => None
           end
  end.

(** Successive [getline] results on a stream: each chunk ends with its
    newline, except possibly the last one. *)
Fixpoint getlines (stream : string) : list string :=
  match stream with
  | EmptyString => []
  | String c stream' =>
      if Ascii.eqb c LF then String c EmptyString :: getlines stream'
      else match getlines stream' with
           | [] => [String c EmptyString]
           | chunk :: chunks => String c chunk :: chunks
           end
  end.

(** The last byte of a non-empty string, and the string without it. *)
Fixpoint last_byte (s : string) : option ascii :=
  match s with
  | EmptyString => None
  | String c EmptyString => Some c
  | String _ s' => last_byte s'
  end.

Fixpoint drop_last (s : string) : string :=
  match s with
  | EmptyString => EmptyString
  | String _ EmptyString => EmptyString
  | String c s' => String c (drop_last s')
  end.

End Libc.

(* ===================================================================== *)
(** ** The jansson calls the program makes *)
(* ===================================================================== *)

Module Jansson.

#[warnings="-register-all"]
Inductive json : Type :=
  | JString (s : string)
  | JArray (l : list json)
  | JObject (m : gmap string json).

(** Length of the UTF-8 sequence a byte opens; 0 for a byte that cannot
    open one. *)
Definition utf8_check_first (byte : ascii) : nat :=
  let u := N_of_ascii byte in
  if (u <? 0x80)%N then 1
  else if (u <=? 0xBF)%N then 0
  else if (u =? 0xC0)%N || (u =? 0xC1)%N then 0
  else if (u <=? 0xDF)%N then 2
  else if (u <=? 0xEF)%N then 3
  else if (u <=? 0xF4)%N then 4
  else 0.

(** Folds the continuation bytes into the code point; [None] when one of
    them is not a continuation byte. *)
Fixpoint utf8_continuation (value : N) (bytes : list ascii) : option N :=
  match bytes with
  | [] => Some value
  | b :: bytes' =>
      let u := N_of_ascii b in
      if (u <? 0x80)%N || (0xBF <? u)%N then None
      else utf8_continuation (N.shiftl value 6 + N.land u 0x3F)%N bytes'
  end.

Definition utf8_check_full (buffer : list ascii) (size : nat) : bool :=
  match buffer with
  | [] => false
  | b0 :: tail =>
      let u := N_of_ascii b0 in
      let lead :=
        match size with
        | 2 => Some (N.land u 0x1F)
        | 3 => Some (N.land u 0xF)
        | 4 => Some (N.land u 0x7)
        | _ => None
        end in
      match lead with
      | None => false
      | Some v0 =>
          match utf8_continuation v0 tail with
          | None => false
          | Some value =>
              if (0x10FFFF <? value)%N then false
              else if (0xD800 <=? value)%N && (value <=? 0xDFFF)%N then false
              else if (Nat.eqb size 2 && (value <? 0x80)%N)
                      || (Nat.eqb size 3 && (value <? 0x800)%N)
                      || (Nat.eqb size 4 && (value <? 0x10000)%N) then false
              else true
          end
      end
  end.

Fixpoint utf8_check_loop (fuel : nat) (bytes : list ascii) : bool :=
  match fuel, bytes with
  | _, [] => true
  | O, _ :: _ => false
  | S fuel', b :: _ =>
      match utf8_check_first b with
      | 0 => false
      | 1 => utf8_check_loop fuel' (drop 1 bytes)
      | count =>
          if Nat.ltb (length bytes) count then false
          else if utf8_check_full (take count bytes) count
               then utf8_check_loop fuel' (drop count bytes)
               else false
      end
  end.

Definition utf8_check_string (s : string) : bool :=
  let bytes := list_ascii_of_string s in
  utf8_check_loop (length bytes) bytes.

(** [json_string(value)]: NULL for a NULL or ill-encoded argument. *)
Definition json_string (value : option string) : option json :=
  match value with
  | Some s => if utf8_check_string s then Some (JString s) else None
  | None => None
  end.

(** [json_string_value(json)]: NULL unless [json] is a string. *)
Definition json_string_value (j : option json) : option string :=
  match j with
  | Some (JString s) => Some s
  | _ => None
  end.

(** [json_object_get(json, key)]: NULL unless [json] is an object that
    has the key. *)
Definition json_object_get (j : json) (key : string) : option json :=
  match j with
  | JObject m => m !! key
  | _ => None
  end.

(** [json_object_set_new(obj, key, value)] on the members of an object:
    the call fails, leaving the object as it is, for a NULL or ill-encoded
    key and for a NULL value; otherwise the key is bound to the value,
    replacing an earlier binding. *)
Definition json_object_set_new {V} (obj : gmap string V)
    (key : option string) (value : option V) : gmap string V :=
  match key, value with
  | Some k, Some v => if utf8_check_string k then <[k := v]> obj else obj
  | _, _ => obj
  end.

(** [json_array_append(array, value)] and [json_array_append_new]: they
    differ in reference counting only.  A NULL value is refused. *)
Definition json_array_append (array : list json) (value : option json)
    : list json :=
  match value with
  | Some v => array ++ [v]
  | None => array
  end.

Definition json_object : gmap string json := ∅.
Definition json_array : list json := [].

End Jansson.

Import Libc Jansson.

(* ===================================================================== *)
(** ** inventory.c *)
(* ===================================================================== *)

(** [find_dict] (lines 44-55).  The looked-up value only feeds a [printf];
    the function returns the fresh [output_dict] whatever it finds.  The
    second component tells whether the [printf] of line 51 ran. *)
Definition find_dict (root_obj : json) (keyname : string)
    : json * option string :=
  let output_dict := JObject json_object in
  let string_value := json_object_get root_obj keyname in
  (output_dict, json_string_value string_value).

(** The bytes behind a block in the run the closed examples at the end are
    about: the block is cut from the top of the heap and the chunk that
    jansson allocates next, for its copy of a short value, puts its size
    field, 0x21, there. *)
Definition fresh_heap : string -> string := fun _ => "!".

Section Heap.

(** What lies behind the block that holds the copy of the token
    [key_ptr], up to the first NUL, at the time the key is read. *)
Variable behind : string -> string.

(** Lines 97-99, and the key as [json_object_set_new] reads it on lines 107
    and 110.  The token is copied by [strcpy] into [malloc(strlen(key_ptr))]
    bytes, and [strtok] picks the key in the copy.  When the block has a
    byte to spare the copy keeps its terminator.  When it has none (a token
    of 24, 40, 56, ... bytes) the terminator lies outside the block, where
    the allocations of [json_string] can overwrite it before the key is
    read: unless [strtok] has ended the key at an equals sign, the key then
    runs on into the bytes behind the block. *)
Definition key_read (key_ptr : string) : option string :=
  match strtok key_ptr "=" with
  | None => None
  | Some key =>
      if (malloc_usable_size (String.length key_ptr) <=? String.length key_ptr)%nat
         && strtok_at_end key_ptr "="
      then Some (key +:+ behind key_ptr)
      else Some key
  end.

(** The [while] loop of [convert_ini_line] (lines 94-112).  Every round
    consumes at least one byte of [rest], so [String.length rest] rounds
    are enough (lemma [vars_loop_tokens]). *)
Fixpoint vars_loop (fuel : nat) (rest : string) (vars_obj : gmap string json)
    : gmap string json :=
  match fuel with
  | O => vars_obj
  | S fuel' =>
      match strtok_r rest " " with
      | (None, _) => vars_obj
      | (Some key_ptr, rest') =>
          let key := key_read key_ptr in
          let vars_obj' :=
            match strchr key_ptr "=" with
            | Some (_, value_ptr) =>
                json_object_set_new vars_obj key (json_string (Some value_ptr))
            | None =>
                json_object_set_new vars_obj key (json_string (Some ""))
            end in
          vars_loop fuel' rest' vars_obj'
      end
  end.

(** [convert_ini_line] (lines 75-117). *)
Definition convert_ini_line (ini_string : string) : json :=
  let return_obj := json_object in
  let '(key, rest) := strtok_r ini_string " " in
  let return_obj :=
    json_object_set_new return_obj (Some "hostname") (json_string key) in
  if String.eqb rest "" then JObject return_obj
  else
    let vars_obj := vars_loop (String.length rest) rest json_object in
    JObject (json_object_set_new return_obj (Some "vars")
               (Some (JObject vars_obj))).

(** What a key of [root] points to.  [meta], [all] and [ungrouped] wrap the
    three containers the parser keeps appending to; any other member is a
    value that is never touched again once it is linked. *)
Inductive member : Type :=
  | MMeta
  | MAll
  | MUngrouped
  | MValue (j : json).

(** The heap objects of [parse_hosts_ini] (lines 137-143) and its flag. *)
Record inventory : Type := Inventory {
  root : gmap string member;
  all_children : list json;
  ungrouped_hosts : list json;
  hostvars : gmap string json;
  groups_flag : Z
}.

(** Lines 137-152 and 167. *)
Definition default_inventory : inventory :=
  {| root :=
       json_object_set_new
         (json_object_set_new
            (json_object_set_new ∅ (Some "_meta") (Some MMeta))
            (Some "all") (Some MAll))
         (Some "ungrouped") (Some MUngrouped);
     all_children := json_array_append json_array (json_string (Some "ungrouped"));
     ungrouped_hosts := json_array;
     hostvars := json_object;
     groups_flag := 0 |}.

(** The value of [sub_group] after lines 202-213. *)
Inductive sub_group_ptr : Type :=
  | SubUninitialised
  | SubNull
  | SubAt (s : string).

(** Lines 200-213: [group_name] and [sub_group] for a line whose first byte
    is the opening bracket; [tail] is [line + 1]. *)
Definition section_name (tail : string) : string * sub_group_ptr :=
  match strchr tail "]" with
  | Some (group_name, _) =>
      match strchr group_name ":" with
      | Some (group_name', sub_group) => (group_name', SubAt sub_group)
      | None => (group_name, SubNull)
      end
  | None => (tail, SubUninitialised)
  end.

(** Lines 199-234: a section header met once [groups_flag] is set. *)
Definition section_header (st : inventory) (tail : string) : inventory :=
  let group_name := fst (section_name tail) in
  match root st !! group_name with
  | Some _ => st
  | None =>
      {| root :=
           json_object_set_new (root st) (Some group_name)
             (Some (MValue (JObject json_object)));
         all_children :=
           json_array_append (all_children st) (json_string (Some group_name));
         ungrouped_hosts := ungrouped_hosts st;
         hostvars := hostvars st;
         groups_flag := groups_flag st |}
  end.

(** Lines 182-194: an entry met while [groups_flag] is still 0. *)
Definition ungrouped_entry (st : inventory) (line : string) : inventory :=
  let line_as_json := convert_ini_line line in
  let hostname := json_object_get line_as_json "hostname" in
  let vars := json_object_get line_as_json "vars" in
  {| root := root st;
     all_children := all_children st;
     ungrouped_hosts := json_array_append (ungrouped_hosts st) hostname;
     hostvars :=
       match vars with
       | Some _ =>
           json_object_set_new (hostvars st) (json_string_value hostname) vars
       | None => hostvars st
       end;
     groups_flag := groups_flag st |}.

Definition set_groups_flag (st : inventory) (flag : Z) : inventory :=
  {| root := root st;
     all_children := all_children st;
     ungrouped_hosts := ungrouped_hosts st;
     hostvars := hostvars st;
     groups_flag := flag |}.

(** Lines 178-180: the first header ends the ungrouped entries. *)
Definition first_header (st : inventory) (c0 : ascii) : inventory :=
  if (groups_flag st =? 0)%Z && Ascii.eqb c0 "["
  then set_groups_flag st (groups_flag st + 1)
  else st.

(** Lines 173-236: the loop body on a line whose newline is gone. *)
Definition process_line (st : inventory) (line : string) : inventory :=
  match line with
  | EmptyString => st
  | String c0 tail =>
      let st := first_header st c0 in
      if (groups_flag st =? 0)%Z then ungrouped_entry st line
      else if Ascii.eqb c0 "[" then section_header st tail
      else st
  end.

(** Lines 170-171: the newline is cut off the C string in the buffer. *)
Definition chomp (line : string) : string :=
  match last_byte line with
  | Some c => if Ascii.eqb c LF then drop_last line else line
  | None => line
  end.

(** One round of the [getline] loop (lines 168-237). *)
Definition step (st : inventory) (chunk : string) : inventory :=
  process_line st (chomp (cstr chunk)).

(** The tree [root] stands for: every key with the object it points to. *)
Definition deref (st : inventory) (m : member) : json :=
  match m with
  | MMeta => JObject {[ "hostvars" := JObject (hostvars st) ]}
  | MAll => JObject {[ "children" := JArray (all_children st) ]}
  | MUngrouped => JObject {[ "hosts" := JArray (ungrouped_hosts st) ]}
  | MValue j => j
  end.

Definition tree (st : inventory) : json := JObject (deref st <$> root st).

(** The file system as [fopen] sees it: the bytes of a file that opens,
    [None] for one that does not. *)
Definition filesystem : Type := string -> option string.

Definition build (stream : string) : inventory :=
  fold_left step (getlines stream) default_inventory.

(** [parse_hosts_ini] (lines 134-243). *)
Definition parse_hosts_ini (fs : filesystem) (filename : string)
    : option json :=
  match fs filename with
  | None => Some (JObject json_object)
  | Some stream => Some (tree (build stream))
  end.

(** [host] (lines 245-259): the dictionary handed to [json_dumps]. *)
Definition host (hostname : string) (root_json : json) : json :=
  fst (find_dict root_json hostname).

(** What [main] writes to standard output, one item per [printf]. *)
Inductive output : Type :=
  | Usage
  | FailedToRead (filename : string)
  | Dump (j : json)
  | MissingHostname
  | UnknownOptions.

Definition ini_filename : string := "hosts.ini".
Definition valid_options : list string := ["-l"; "-H"; "--list"; "--host"].

(** [main] (lines 261-315): the output and the exit status.  [argv]
    includes the program name, [argc] is its length.  What the parser and
    [find_dict] print on the way is left out. *)
Definition main (fs : filesystem) (argv : list string) : list output * Z :=
  match argv with
  | [] | [_] => ([Usage], 0%Z)
  | _ :: argv1 :: rest =>
      if String.eqb argv1 "--help" || String.eqb argv1 "-h" then ([Usage], 0%Z)
      else if existsb (fun opt => String.eqb opt argv1) valid_options then
        match parse_hosts_ini fs ini_filename with
        | None => ([FailedToRead ini_filename], 1%Z)
        | Some root =>
            let listed :=
              if String.eqb argv1 "--list" || String.eqb argv1 "-l"
              then [Dump root] else [] in
            let hosted :=
              if String.eqb argv1 "--host" || String.eqb argv1 "-H" then
                match rest with
                | argv2 :: _ => [Dump (host argv2 root)]
                | [] => [MissingHostname; Usage]
                end
              else [] in
            (listed ++ hosted, 0%Z)
        end
      else ([UnknownOptions; Usage], 1%Z)
  end.

(** A text file made of the given lines, each ended by a newline. *)
Definition text (lines : list string) : string :=
  fold_right (fun l s => l +:+ String LF s) "" lines.

(* ===================================================================== *)
(** ** Vocabulary of the statements *)
(* ===================================================================== *)

(** The member reached from [j] by following the keys in turn. *)
Fixpoint json_path (j : json) (keys : list string) : option json :=
  match keys with
  | [] => Some j
  | key :: keys' => json_object_get j key ≫= fun j' => json_path j' keys'
  end.

(** The tree the comment of lines 119-133 draws. *)
Definition default_tree : json :=
  JObject {[ "_meta" := JObject {[ "hostvars" := JObject ∅ ]};
             "all" := JObject {[ "children" := JArray [JString "ungrouped"] ]};
             "ungrouped" := JObject {[ "hosts" := JArray [] ]} ]}.

(** The members [root] is given on lines 150-152 still point to the three
    default objects. *)
Definition root_intact (st : inventory) : Prop :=
  root st !! "_meta" = Some MMeta /\
  root st !! "all" = Some MAll /\
  root st !! "ungrouped" = Some MUngrouped.

(** The end-to-end example of the specification. *)
Definition example_input : string :=
  text ["web1 env=prod"; "[webservers]"; "web2"; "web3 env=staging";
        "[webservers:vars]"; "port=80"].

(** A file system whose every file holds [stream], and one with no file. *)
Definition only_file (stream : string) : filesystem := fun _ => Some stream.
Definition no_file : filesystem := fun _ => None.

(** The fields of [s] between occurrences of the byte [d], empty ones
    included, and the non-empty ones. *)
Fixpoint split (d : ascii) (s : string) : list string :=
  match s with
  | EmptyString => [EmptyString]
  | String c s' =>
      if Ascii.eqb c d then EmptyString :: split d s'
      else match split d s' with
           | field :: others => String c field :: others
           | [] => [String c EmptyString]
           end
  end.

Definition fields (d : ascii) (s : string) : list string :=
  filter (fun field => field <> EmptyString) (split d s).

(** Every byte of [s] satisfies [p]. *)
Fixpoint all_bytes (p : ascii -> bool) (s : string) : bool :=
  match s with
  | EmptyString => true
  | String c s' => p c && all_bytes p s'
  end.

Definition spaces_only (s : string) : bool :=
  all_bytes (fun c => Ascii.eqb c " ") s.
Definition space_free (s : string) : bool :=
  all_bytes (fun c => negb (Ascii.eqb c " ")) s.

Definition equals_free (s : string) : bool :=
  all_bytes (fun c => negb (Ascii.eqb c "=")) s.

(** The copy of the token keeps its terminator inside its block. *)
Definition fits_block (tok : string) : bool :=
  (String.length tok <? malloc_usable_size (String.length tok))%nat.

(** The key and the value of an attribute token: the key it is filed under,
    and what follows its first equals sign. *)
Definition attr_key (tok : string) : option string := key_read tok.
Definition attr_value (tok : string) : string :=
  from_option snd EmptyString (strchr tok "=").

(** The binding a token adds to [vars]; none when jansson refuses the key
    or the value. *)
Definition attribute (tok : string) : option (string * json) :=
  match attr_key tok, json_string (Some (attr_value tok)) with
  | Some k, Some v => if utf8_check_string k then Some (k, v) else None
  | _, _ => None
  end.

(** The bindings of a list of tokens, a later token overriding an earlier
    one with the same key. *)
Definition attributes (toks : list string) : gmap string json :=
  list_to_map (reverse (omap attribute toks)).

(** The object [convert_ini_line] returns for an identifier and its
    attributes, if it has any. *)
Definition entry (id : option string) (vars : option (gmap string json))
    : json :=
  JObject (json_object_set_new
             (json_object_set_new ∅ (Some "hostname") (json_string id))
             (Some "vars") (JObject <$> vars)).

(** The three kinds of line the loop tells apart (lines 174, 178, 199). *)
Inductive line_class : Type := Blank | GroupHeader | DataLine.

#[global] Instance line_class_eq_dec : EqDecision line_class.
Proof. solve_decision. Defined.

Definition classify (line : string) : line_class :=
  match line with
  | EmptyString => Blank
  | String c0 _ => if Ascii.eqb c0 "[" then GroupHeader else DataLine
  end.

(** [line + 1]: the line behind its first byte. *)
Definition after_first_byte (line : string) : string :=
  match line with
  | EmptyString => EmptyString
  | String _ tail => tail
  end.

(** The lines the loop sees, and those of them that come before the first
    group header. *)
Definition lines_of (stream : string) : list string :=
  map (fun chunk => chomp (cstr chunk)) (getlines stream).

Fixpoint before_first_header (lines : list string) : list string :=
  match lines with
  | [] => []
  | line :: lines' =>
      match classify line with
      | GroupHeader => []
      | _ => line :: before_first_header lines'
      end
  end.

(** The variables a line declares for host [h]: the [vars] object of the
    decoded line when its identifier is [h] and it has one. *)
Definition declared_vars (h line : string) : option json :=
  match json_object_get (convert_ini_line line) "hostname",
        json_object_get (convert_ini_line line) "vars" with
  | Some (JString h'), Some vars => if decide (h' = h) then Some vars else None
  | _, _ => None
  end.

(** The binding one round of the loop of [convert_ini_line] adds. *)
Definition bind_token (vars_obj : gmap string json) (tok : string)
    : gmap string json :=
  json_object_set_new vars_obj (attr_key tok)
    (json_string (Some (attr_value tok))).

(** None of the listed outputs is the failure message. *)
Ltac no_failure :=
  cbn [fst app]; rewrite ?elem_of_cons, elem_of_nil; intuition discriminate.


(** Strings without a closing bracket, and without a colon. *)
Definition bracket_free (s : string) : bool :=
  all_bytes (fun c => negb (Ascii.eqb c "]")) s.
Definition colon_free (s : string) : bool :=
  all_bytes (fun c => negb (Ascii.eqb c ":")) s.

(** A line as a text file holds it: no NUL and no newline inside. *)
Definition plain_line (s : string) : bool :=
  all_bytes (fun c => negb (Ascii.eqb c NUL) && negb (Ascii.eqb c LF)) s.

(** The lines from the first group header on. *)
Fixpoint from_first_header (lines : list string) : list string :=
  match lines with
  | [] => []
  | line :: lines' =>
      match classify line with
      | GroupHeader => line :: lines'
      | _ => from_first_header lines'
      end
  end.

(** The host a line adds to [ungrouped.hosts] when it is decoded: its first
    space-separated field, if jansson takes it for a string. *)
Definition declared_host (line : string) : option json :=
  json_string (head (fields " " line)).

(** [all.children] indexes the top-level keys: it has no duplicates, and a
    key is a member of [root] exactly when it is [_meta], [all] or one of
    the children. *)
Definition children_index_root (st : inventory) : Prop :=
  NoDup (all_children st) /\
  forall k, is_Some (root st !! k) <->
    k = "_meta" \/ k = "all" \/ JString k ∈ all_children st.

(** Each member of [root] sits under its own key, and a group is an empty
    object. *)
Definition members_in_place (st : inventory) : Prop :=
  forall k m, root st !! k = Some m ->
    match m with
    | MMeta => k = "_meta"
    | MAll => k = "all"
    | MUngrouped => k = "ungrouped"
    | MValue j => j = JObject ∅
    end.

(** Every host that has variables is listed, and the variables of a host
    are an object of strings. *)
Definition string_object (j : json) : Prop :=
  exists m : gmap string json,
    j = JObject m /\ forall k x, m !! k = Some x -> exists v, x = JString v.

Definition hostvars_sound (st : inventory) : Prop :=
  forall h vars, hostvars st !! h = Some vars ->
    JString h ∈ ungrouped_hosts st /\ string_object vars.

(* ===================================================================== *)
(** ** The fuel of the UTF-8 check *)
(* ===================================================================== *)

(** Every round of the check drops at least one byte, so the length of the
    string is fuel enough: more fuel gives the same answer. *)
Lemma utf8_check_loop_fuel fuel1 fuel2 bytes :
  length bytes <= fuel1 -> length bytes <= fuel2 ->
  utf8_check_loop fuel1 bytes = utf8_check_loop fuel2 bytes.
Proof.
  revert fuel2 bytes.
  induction fuel1 as [|fuel1 IH]; intros fuel2 bytes Hlen1 Hlen2.
  - destruct bytes; [by destruct fuel2|simpl in Hlen1; lia].
  - destruct bytes as [|b bytes]; [by destruct fuel2|].
    destruct fuel2 as [|fuel2]; [simpl in Hlen2; lia|].
    cbn [utf8_check_loop]. cbn [length] in Hlen1, Hlen2.
    destruct (utf8_check_first b) as [|[|count]]; [done| |].
    + apply IH; cbn [drop]; rewrite ?drop_0; lia.
    + destruct (Nat.ltb _ _); [done|].
      destruct (utf8_check_full _ _); [|done].
      apply IH; rewrite length_drop; cbn [length]; lia.
Qed.

Example utf8_check_samples :
  utf8_check_string "webservers" = true /\
  utf8_check_string (String "195" (String "169" "")) = true /\
  utf8_check_string (String "195" "") = false /\
  utf8_check_string (String "255" "a") = false.
Proof. repeat split; reflexivity. Qed.

(* ===================================================================== *)
(** ** The store behind the tree *)
(* ===================================================================== *)

Lemma default_inventory_intact : root_intact default_inventory.
Proof. repeat split; vm_compute; reflexivity. Qed.

Lemma default_children : all_children default_inventory = [JString "ungrouped"].
Proof. reflexivity. Qed.

Lemma set_new_keeps {V} (obj : gmap string V) key value k m :
  obj !! k = Some m ->
  (forall name, key = Some name -> obj !! name = None) ->
  json_object_set_new obj key value !! k = Some m.
Proof.
  intros Hk Hfresh. unfold json_object_set_new.
  destruct key as [name|]; [|done]. destruct value as [v|]; [|done].
  destruct (utf8_check_string name); [|done].
  rewrite lookup_insert_ne; [done|].
  intros ->. rewrite (Hfresh k eq_refl) in Hk. discriminate.
Qed.

Lemma section_header_root st tail k m :
  root st !! k = Some m -> root (section_header st tail) !! k = Some m.
Proof.
  intros Hk. unfold section_header.
  destruct (root st !! fst (section_name tail)) eqn:Hg; [done|]. cbn [root].
  apply set_new_keeps; [done|]. by intros name [= <-].
Qed.

Lemma process_line_root st line k m :
  root st !! k = Some m -> root (process_line st line) !! k = Some m.
Proof.
  intros Hk. destruct line as [|c0 tail]; [done|]. unfold process_line.
  assert (root (first_header st c0) !! k = Some m) as Hk1
    by (unfold first_header; by destruct (_ && _)).
  destruct (groups_flag (first_header st c0) =? 0)%Z; [done|].
  destruct (Ascii.eqb c0 "["); [by apply section_header_root|done].
Qed.

Lemma process_line_intact st line :
  root_intact st -> root_intact (process_line st line).
Proof. intros (?&?&?). repeat split; by apply process_line_root. Qed.

Lemma fold_step_intact chunks st :
  root_intact st -> root_intact (fold_left step chunks st).
Proof.
  revert st. induction chunks as [|chunk chunks IH]; intros st Hst; [done|].
  simpl. apply IH. by apply process_line_intact.
Qed.

Lemma build_intact stream : root_intact (build stream).
Proof. apply fold_step_intact, default_inventory_intact. Qed.

Lemma json_path_app j keys1 keys2 :
  json_path j (keys1 ++ keys2)
  = json_path j keys1 ≫= fun j' => json_path j' keys2.
Proof.
  revert j. induction keys1 as [|key keys1 IH]; intros j; [done|].
  cbn [app json_path]. destruct (json_object_get j key) as [j'|]; [|done].
  apply IH.
Qed.

(** Reading the three default members off the tree. *)
Lemma tree_member st key :
  json_object_get (tree st) key = deref st <$> root st !! key.
Proof. unfold tree. simpl. apply lookup_fmap. Qed.

Lemma tree_children st :
  root_intact st ->
  json_path (tree st) ["all"; "children"] = Some (JArray (all_children st)).
Proof. intros (_&Hall&_). cbn [json_path]. rewrite tree_member, Hall. reflexivity. Qed.

Lemma tree_hosts st :
  root_intact st ->
  json_path (tree st) ["ungrouped"; "hosts"] = Some (JArray (ungrouped_hosts st)).
Proof. intros (_&_&Hun). cbn [json_path]. rewrite tree_member, Hun. reflexivity. Qed.

Lemma tree_hostvars st :
  root_intact st ->
  json_path (tree st) ["_meta"; "hostvars"] = Some (JObject (hostvars st)).
Proof. intros (Hmeta&_&_). cbn [json_path]. rewrite tree_member, Hmeta. reflexivity. Qed.

(** The list of children only ever grows at its end. *)
Lemma section_header_children st tail :
  exists ext, all_children (section_header st tail) = all_children st ++ ext.
Proof.
  unfold section_header.
  destruct (root st !! fst (section_name tail)).
  - exists []. by rewrite app_nil_r.
  - cbn [all_children]. unfold json_array_append.
    destruct (json_string _) as [v|]; [by exists [v]|].
    exists []. by rewrite app_nil_r.
Qed.

Lemma process_line_children st line :
  exists ext, all_children (process_line st line) = all_children st ++ ext.
Proof.
  destruct line as [|c0 tail]; [exists []; by rewrite app_nil_r|].
  unfold process_line.
  assert (all_children (first_header st c0) = all_children st) as <-
    by (unfold first_header; by destruct (_ && _)).
  destruct (groups_flag (first_header st c0) =? 0)%Z;
    [exists []; by rewrite app_nil_r|].
  destruct (Ascii.eqb c0 "["); [apply section_header_children|].
  exists []. by rewrite app_nil_r.
Qed.

Lemma fold_step_children chunks st :
  exists ext, all_children (fold_left step chunks st) = all_children st ++ ext.
Proof.
  revert st. induction chunks as [|chunk chunks IH]; intros st.
  - exists []. by rewrite app_nil_r.
  - simpl. destruct (IH (step st chunk)) as [ext2 ->].
    destruct (process_line_children st (chomp (cstr chunk))) as [ext1 Hext1].
    unfold step. rewrite Hext1. exists (ext1 ++ ext2). by rewrite app_assoc.
Qed.

(* ===================================================================== *)
(** ** The source that cannot be opened, and [main] *)
(* ===================================================================== *)

Lemma parse_unopened fs filename :
  fs filename = None -> parse_hosts_ini fs filename = Some (JObject ∅).
Proof. intros Hfs. unfold parse_hosts_ini. by rewrite Hfs. Qed.

Lemma parse_not_null fs filename : parse_hosts_ini fs filename <> None.
Proof. unfold parse_hosts_ini. by destruct (fs filename). Qed.

Lemma build_empty : tree (build "") = default_tree.
Proof. vm_compute. reflexivity. Qed.

(** C2 (amended): when the source cannot be opened, [parse_hosts_ini]
    returns a non-null JSON object that is empty: it has no member at all.
    The default shape is what an empty source that does open gives. *)
Theorem unopened_source_gives_empty_object (fs : filesystem) (filename : string) :
  fs filename = None ->
  parse_hosts_ini fs filename = Some (JObject ∅) /\
  (forall key, json_object_get (JObject ∅) key = None) /\
  parse_hosts_ini (only_file "") filename = Some default_tree.
Proof.
  intros Hfs. split; [by apply parse_unopened|]. split.
  - intros key. apply lookup_empty.
  - unfold parse_hosts_ini, only_file. by rewrite build_empty.
Qed.

(** C9: for every source that opens, the empty one included, the
    [children] array of [all] in the returned tree contains "ungrouped";
    and no round of the loop removes anything from that array, it only
    extends it at the end. *)
Theorem all_children_contains_ungrouped
    (fs : filesystem) (filename stream : string) :
  fs filename = Some stream ->
  (exists t l, parse_hosts_ini fs filename = Some t /\
     json_path t ["all"; "children"] = Some (JArray l) /\
     JString "ungrouped" ∈ l) /\
  (forall st chunk, exists ext,
     all_children (step st chunk) = all_children st ++ ext).
Proof.
  intros Hfs. split.
  - exists (tree (build stream)), (all_children (build stream)).
    split; [unfold parse_hosts_ini; by rewrite Hfs|].
    split; [apply tree_children, build_intact|].
    destruct (fold_step_children (getlines stream) default_inventory)
      as [ext Hext].
    unfold build. rewrite Hext, default_children. apply elem_of_app.
    left. apply list_elem_of_here.
  - intros st chunk. apply process_line_children.
Qed.

(** C10: [parse_hosts_ini] never returns NULL, and for a file that does
    not open it returns a fresh empty object; so [main] never takes the
    branch that prints "Failed to read" and exits with 1, and list mode
    without a [hosts.ini] exits with status 0. *)
Theorem parse_never_null_failure_branch_dead :
  (forall fs filename, exists t, parse_hosts_ini fs filename = Some t) /\
  (forall filename, parse_hosts_ini no_file filename = Some (JObject ∅)) /\
  (forall fs argv filename, FailedToRead filename ∉ fst (main fs argv)) /\
  (forall prog, main no_file [prog; "--list"] = ([Dump (JObject ∅)], 0%Z)) /\
  (forall prog, main no_file [prog; "-l"] = ([Dump (JObject ∅)], 0%Z)).
Proof.
  split; [|split; [|split; [|split]]].
  - intros fs filename. unfold parse_hosts_ini.
    destruct (fs filename); eauto.
  - reflexivity.
  - intros fs argv filename. unfold main.
    destruct argv as [|prog [|argv1 rest]]; [no_failure..|].
    destruct (_ || _); [no_failure|].
    destruct (existsb _ _); [|no_failure].
    destruct (parse_hosts_ini fs ini_filename) as [t|] eqn:Hparse;
      [|by apply parse_not_null in Hparse].
    destruct (_ || _), (_ || _), rest; no_failure.
  - reflexivity.
  - reflexivity.
Qed.

(* ===================================================================== *)
(** ** Host mode *)
(* ===================================================================== *)

(** C5 (amended): in host mode the answer is the empty JSON object for
    every hostname, whether or not [_meta.hostvars] has an entry for it;
    it is never an error. *)
Theorem host_mode_always_empty_object :
  (forall hostname root_json, host hostname root_json = JObject ∅) /\
  (forall fs prog hostname,
     main fs [prog; "--host"; hostname] = ([Dump (JObject ∅)], 0%Z) /\
     main fs [prog; "-H"; hostname] = ([Dump (JObject ∅)], 0%Z)).
Proof.
  split; [reflexivity|].
  intros fs prog hostname. unfold main. cbn [existsb valid_options].
  split.
  - change (String.eqb "--host" "--help" || String.eqb "--host" "-h") with false.
    cbv iota.
    destruct (parse_hosts_ini fs ini_filename) as [t|] eqn:Hparse;
      [reflexivity|by apply parse_not_null in Hparse].
  - destruct (parse_hosts_ini fs ini_filename) as [t|] eqn:Hparse;
      [reflexivity|by apply parse_not_null in Hparse].
Qed.

(* ===================================================================== *)
(** ** The end-to-end example *)
(* ===================================================================== *)

(** C1 (amended): for the six-line input the tree has
    [ungrouped.hosts = ["web1"]], [_meta.hostvars = {web1:{env:"prod"}}]
    with no entry for [web2] or [web3], [all.children =
    ["ungrouped","webservers"]], and a [webservers] group that is an empty
    object: the lines below the header add neither hosts nor variables. *)
Theorem example_tree :
  parse_hosts_ini (only_file example_input) "hosts.ini" =
  Some (JObject
    {[ "_meta" := JObject {[ "hostvars" :=
          JObject {[ "web1" := JObject {[ "env" := JString "prod" ]} ]} ]};
       "all" := JObject {[ "children" :=
          JArray [JString "ungrouped"; JString "webservers"] ]};
       "ungrouped" := JObject {[ "hosts" := JArray [JString "web1"] ]};
       "webservers" := JObject ∅ ]}).
Proof. vm_compute. reflexivity. Qed.

(* ===================================================================== *)
(** ** Tokens *)
(* ===================================================================== *)

Lemma append_cons c s1 s2 : String c s1 +:+ s2 = String c (s1 +:+ s2).
Proof. reflexivity. Qed.

Lemma append_empty_r s : s +:+ "" = s.
Proof. induction s as [|c s IH]; [done|]. by rewrite append_cons, IH. Qed.

Lemma length_zero_empty s : String.length s = 0 -> s = "".
Proof. by destruct s. Qed.

Section Tokens.
Variable d : ascii.
Local Abbreviation delim := (String d "").

Lemma is_delim_single c : is_delim delim c = Ascii.eqb c d.
Proof. simpl. apply orb_false_r. Qed.

Lemma fields_empty : fields d "" = [].
Proof. reflexivity. Qed.

Lemma fields_delim s : fields d (String d s) = fields d s.
Proof.
  unfold fields. cbn [split]. rewrite Ascii.eqb_refl.
  by rewrite filter_cons_False by (intros H; by apply H).
Qed.

Lemma cut_token_split s :
  split d s =
  (cut_token delim s).1 :: from_option (split d) [] (cut_token delim s).2.
Proof.
  induction s as [|c s IH]; [done|].
  cbn [split cut_token]. rewrite is_delim_single.
  destruct (Ascii.eqb c d); [done|].
  rewrite IH. by destruct (cut_token delim s).
Qed.

Lemma cut_token_shorter s rest :
  (cut_token delim s).2 = Some rest -> String.length rest < String.length s.
Proof.
  revert rest. induction s as [|c s IH]; intros rest; [done|].
  cbn [cut_token]. destruct (is_delim delim c).
  - intros [= ->]. simpl. lia.
  - destruct (cut_token delim s) as [tok after] eqn:Hcut. simpl.
    intros ->. specialize (IH rest eq_refl). lia.
Qed.

Lemma skip_delims_fields s : fields d (skip_delims delim s) = fields d s.
Proof.
  induction s as [|c s IH]; [done|].
  cbn [skip_delims]. rewrite is_delim_single.
  destruct (Ascii.eqb c d) eqn:Hc; [|done].
  apply Ascii.eqb_eq in Hc as ->. by rewrite fields_delim.
Qed.

Lemma skip_delims_shorter s :
  String.length (skip_delims delim s) <= String.length s.
Proof.
  induction s as [|c s IH]; [done|].
  cbn [skip_delims]. destruct (is_delim delim c); simpl in *; lia.
Qed.

Lemma skip_delims_head s c s1 :
  skip_delims delim s = String c s1 -> Ascii.eqb c d = false.
Proof.
  induction s as [|c' s IH]; [done|].
  cbn [skip_delims]. rewrite is_delim_single.
  destruct (Ascii.eqb c' d) eqn:Hc; [done|]. by intros [= <- <-].
Qed.

(** What one call of [strtok_r] does, in terms of fields: it hands out the
    first field and leaves the save pointer on a string that holds the
    others. *)
Lemma strtok_r_fields s :
  match strtok_r s delim with
  | (None, rest) => fields d s = [] /\ rest = ""
  | (Some tok, rest) =>
      tok <> "" /\ fields d s = tok :: fields d rest /\
      String.length rest < String.length s
  end.
Proof.
  unfold strtok_r. rewrite <- (skip_delims_fields s).
  pose proof (skip_delims_shorter s) as Hlen.
  destruct (skip_delims delim s) as [|c s1] eqn:Hskip; [done|].
  apply skip_delims_head in Hskip.
  pose proof (cut_token_split (String c s1)) as Hsplit.
  pose proof (cut_token_shorter (String c s1)) as Hshort.
  destruct (cut_token delim (String c s1)) as [tok after] eqn:Hcut.
  assert (tok <> "") as Htok.
  { cbn [cut_token] in Hcut. rewrite is_delim_single, Hskip in Hcut.
    destruct (cut_token delim s1). by intros ->. }
  split; [done|]. cbn [fst snd] in *. split.
  - unfold fields. rewrite Hsplit. rewrite filter_cons_True by done.
    f_equal. by destruct after.
  - destruct after as [rest|]; simpl in *.
    + specialize (Hshort rest eq_refl). lia.
    + lia.
Qed.

Lemma strtok_head s : strtok s delim = head (fields d s).
Proof.
  unfold strtok. pose proof (strtok_r_fields s) as H.
  destruct (strtok_r s delim) as [[tok|] rest]; simpl.
  - destruct H as (_ & -> & _). done.
  - destruct H as [-> _]. done.
Qed.

(** [strtok_r] on a line laid out as padding, identifier, remainder. *)
Lemma skip_delims_padding pad s :
  all_bytes (fun c => Ascii.eqb c d) pad = true ->
  skip_delims delim (pad +:+ s) = skip_delims delim s.
Proof.
  induction pad as [|c pad IH]; [done|].
  cbn [all_bytes]. intros [Hc Hpad]%andb_true_iff.
  rewrite append_cons. cbn [skip_delims]. rewrite is_delim_single, Hc. auto.
Qed.

Lemma cut_token_end id :
  all_bytes (fun c => negb (Ascii.eqb c d)) id = true ->
  cut_token delim id = (id, None).
Proof.
  induction id as [|c id IH]; [done|].
  cbn [all_bytes]. intros [Hc Hid]%andb_true_iff.
  cbn [cut_token]. rewrite is_delim_single.
  apply negb_true_iff in Hc as ->. by rewrite IH.
Qed.

Lemma cut_token_delim id rest :
  all_bytes (fun c => negb (Ascii.eqb c d)) id = true ->
  cut_token delim (id +:+ String d rest) = (id, Some rest).
Proof.
  induction id as [|c id IH].
  - intros _. change ("" +:+ String d rest) with (String d rest).
    cbn [cut_token]. by rewrite is_delim_single, Ascii.eqb_refl.
  - cbn [all_bytes]. intros [Hc Hid]%andb_true_iff.
    rewrite append_cons. cbn [cut_token]. rewrite is_delim_single.
    apply negb_true_iff in Hc as ->. by rewrite IH.
Qed.

Lemma skip_delims_token id s :
  id <> "" ->
  all_bytes (fun c => negb (Ascii.eqb c d)) id = true ->
  skip_delims delim (id +:+ s) = id +:+ s.
Proof.
  intros Hne Hid. destruct id as [|c id]; [done|].
  cbn [all_bytes] in Hid. apply andb_true_iff in Hid as [Hc%negb_true_iff _].
  rewrite append_cons. cbn [skip_delims]. by rewrite is_delim_single, Hc.
Qed.

Lemma strtok_r_padding pad :
  all_bytes (fun c => Ascii.eqb c d) pad = true ->
  strtok_r pad delim = (None, "").
Proof.
  intros Hpad. unfold strtok_r.
  rewrite <- (append_empty_r pad), skip_delims_padding by done. done.
Qed.

Lemma strtok_r_last pad id :
  all_bytes (fun c => Ascii.eqb c d) pad = true ->
  id <> "" ->
  all_bytes (fun c => negb (Ascii.eqb c d)) id = true ->
  strtok_r (pad +:+ id) delim = (Some id, "").
Proof.
  intros Hpad Hne Hid. unfold strtok_r. rewrite skip_delims_padding by done.
  destruct id as [|c id]; [done|].
  pose proof Hid as Hc. cbn [all_bytes] in Hc.
  apply andb_true_iff in Hc as [Hc%negb_true_iff _].
  cbn [skip_delims]. rewrite is_delim_single, Hc.
  by rewrite cut_token_end.
Qed.

Lemma strtok_r_more pad id rest :
  all_bytes (fun c => Ascii.eqb c d) pad = true ->
  id <> "" ->
  all_bytes (fun c => negb (Ascii.eqb c d)) id = true ->
  strtok_r (pad +:+ id +:+ String d rest) delim = (Some id, rest).
Proof.
  intros Hpad Hne Hid. unfold strtok_r. rewrite skip_delims_padding by done.
  destruct id as [|c id]; [done|].
  pose proof Hid as Hc. cbn [all_bytes] in Hc.
  apply andb_true_iff in Hc as [Hc%negb_true_iff _].
  rewrite append_cons. cbn [skip_delims]. rewrite is_delim_single, Hc.
  rewrite <- append_cons. by rewrite cut_token_delim.
Qed.

End Tokens.

(* ===================================================================== *)
(** ** The entry decoder *)
(* ===================================================================== *)

Lemma utf8_hostname : utf8_check_string "hostname" = true.
Proof. reflexivity. Qed.

Lemma utf8_vars : utf8_check_string "vars" = true.
Proof. reflexivity. Qed.

Lemma json_string_valid s j : json_string (Some s) = Some j ->
  j = JString s /\ utf8_check_string s = true.
Proof.
  unfold json_string. destruct (utf8_check_string s); [|done].
  by intros [= <-].
Qed.

Lemma bind_token_attribute vars_obj tok :
  bind_token vars_obj tok =
  match attribute tok with
  | Some (k, v) => <[k := v]> vars_obj
  | None => vars_obj
  end.
Proof.
  unfold bind_token, attribute, json_object_set_new.
  destruct (attr_key tok) as [k|]; [|done].
  destruct (json_string _) as [v|]; [|done].
  by destruct (utf8_check_string k).
Qed.

(** The loop visits the space-separated fields of [rest] in order; the fuel
    [convert_ini_line] gives it is enough. *)
Lemma vars_loop_tokens fuel rest vars_obj :
  String.length rest <= fuel ->
  vars_loop fuel rest vars_obj = foldl bind_token vars_obj (fields " " rest).
Proof.
  revert rest vars_obj.
  induction fuel as [|fuel IH]; intros rest vars_obj Hlen.
  - assert (rest = "") as -> by (apply length_zero_empty; lia). done.
  - cbn [vars_loop]. pose proof (strtok_r_fields " " rest) as Htok.
    destruct (strtok_r rest " ") as [[key_ptr|] rest'].
    + destruct Htok as (_ & -> & Hshort). cbn [foldl].
      rewrite IH by lia. f_equal.
      unfold bind_token, attr_value, attr_key.
      destruct (strchr key_ptr "=") as [[before value_ptr]|]; reflexivity.
    + destruct Htok as [-> _]. done.
Qed.

Lemma foldl_bind_attributes toks :
  foldl bind_token ∅ toks = attributes toks.
Proof.
  unfold attributes.
  induction toks as [|tok toks IH] using rev_ind; [done|].
  rewrite foldl_app. cbn [foldl]. rewrite IH, bind_token_attribute.
  rewrite omap_app, reverse_app. cbn [omap list_omap].
  destruct (attribute tok) as [[k v]|]; reflexivity.
Qed.

Lemma convert_ini_line_vars rest :
  vars_loop (String.length rest) rest json_object = attributes (fields " " rest).
Proof. rewrite vars_loop_tokens by lia. apply foldl_bind_attributes. Qed.

(** In a list of tokens the last one that binds a key decides its value. *)
Lemma attributes_last_wins toks1 tok toks2 k v :
  attribute tok = Some (k, v) ->
  Forall (fun t => attr_key t <> Some k) toks2 ->
  attributes (toks1 ++ tok :: toks2) !! k = Some v.
Proof.
  intros Htok Hlater. rewrite <- foldl_bind_attributes.
  rewrite foldl_app. cbn [foldl].
  generalize (foldl bind_token ∅ toks1). intros m.
  assert (bind_token m tok !! k = Some v) as Hm.
  { rewrite bind_token_attribute, Htok. apply lookup_insert_eq. }
  revert Hm. generalize (bind_token m tok). clear m.
  induction Hlater as [|t toks2 Ht _ IH]; intros m Hm; [done|].
  cbn [foldl]. apply IH. rewrite bind_token_attribute.
  destruct (attribute t) as [[k' v']|] eqn:Hattr; [|done].
  rewrite lookup_insert_ne; [done|]. intros ->. apply Ht.
  unfold attribute in Hattr. destruct (attr_key t) as [k0|]; [|done].
  destruct (json_string _); [|done].
  destruct (utf8_check_string k0); [|done]. by injection Hattr as -> _.
Qed.

(** The two members of the object [convert_ini_line] returns. *)
Lemma convert_ini_line_hostname line :
  json_object_get (convert_ini_line line) "hostname"
  = json_string (head (fields " " line)).
Proof.
  unfold convert_ini_line. pose proof (strtok_r_fields " " line) as Htok.
  destruct (strtok_r line " ") as [key rest].
  assert (key = head (fields " " line)) as <-.
  { destruct key; [by destruct Htok as (_ & -> & _)|by destruct Htok as [-> _]]. }
  assert (forall obj : gmap string json,
    json_object_set_new (json_object_set_new json_object (Some "hostname")
      (json_string key)) (Some "vars") (Some (JObject obj)) !! "hostname"
    = json_string key) as Hvars.
  { intros obj. unfold json_object_set_new at 1. rewrite utf8_vars.
    rewrite lookup_insert_ne by done.
    unfold json_object_set_new. destruct (json_string key); [|done].
    rewrite utf8_hostname. apply lookup_insert_eq. }
  destruct (String.eqb rest ""); cbn [json_object_get]; [|apply Hvars].
  unfold json_object_set_new. destruct (json_string key); [|done].
  rewrite utf8_hostname. apply lookup_insert_eq.
Qed.

Lemma convert_ini_line_layout pad id rest :
  spaces_only pad = true -> id <> "" -> space_free id = true ->
  convert_ini_line pad = JObject ∅ /\
  convert_ini_line (pad +:+ id) = entry (Some id) None /\
  convert_ini_line (pad +:+ id +:+ " ") = entry (Some id) None /\
  (rest <> "" ->
   convert_ini_line (pad +:+ id +:+ " " +:+ rest)
   = entry (Some id) (Some (attributes (fields " " rest)))).
Proof.
  intros Hpad Hne Hid. unfold convert_ini_line, entry. repeat split.
  - by rewrite (strtok_r_padding " ").
  - by rewrite (strtok_r_last " ").
  - change (" " +:+ "") with (String " " "").
    by rewrite (strtok_r_more " ").
  - intros Hrest. change (" " +:+ rest) with (String " " rest).
    rewrite (strtok_r_more " ") by done.
    destruct (String.eqb rest "") eqn:Heq;
      [by apply String.eqb_eq in Heq|].
    by rewrite convert_ini_line_vars.
Qed.

Lemma strchr_found before c after :
  all_bytes (fun a => negb (Ascii.eqb a c)) before = true ->
  strchr (before +:+ String c after) c = Some (before, after).
Proof.
  induction before as [|a before IH].
  - intros _. change ("" +:+ String c after) with (String c after).
    cbn [strchr]. by rewrite Ascii.eqb_refl.
  - cbn [all_bytes]. intros [Ha Hbefore]%andb_true_iff.
    rewrite append_cons. cbn [strchr].
    apply negb_true_iff in Ha as ->. by rewrite IH.
Qed.

Lemma strchr_absent s c :
  all_bytes (fun a => negb (Ascii.eqb a c)) s = true -> strchr s c = None.
Proof.
  induction s as [|a s IH]; [done|].
  cbn [all_bytes strchr]. intros [Ha Hs]%andb_true_iff.
  apply negb_true_iff in Ha as ->. by rewrite IH.
Qed.

(** The key as it is read.  A key that [strtok] ends at an equals sign is
    the run of bytes before it, whatever the block; a token that fits its
    block is filed under its first run of bytes other than the equals sign;
    in every case the key starts with such a run. *)
Lemma key_read_pair k v :
  k <> "" -> equals_free k = true -> key_read (k +:+ String "=" v) = Some k.
Proof.
  intros Hne Hk. unfold key_read, strtok, strtok_at_end.
  rewrite (skip_delims_token "=") by done.
  rewrite (cut_token_delim "=") by done.
  change (k +:+ String "=" v) with ("" +:+ k +:+ String "=" v).
  rewrite (strtok_r_more "=") by done. cbn [fst]. by rewrite andb_false_r.
Qed.

Lemma key_read_fits tok :
  fits_block tok = true -> key_read tok = head (fields "=" tok).
Proof.
  unfold fits_block, key_read. intros Hfits%Nat.ltb_lt.
  rewrite (strtok_head "="). destruct (head (fields "=" tok)); [|done].
  assert ((malloc_usable_size (String.length tok) <=? String.length tok)%nat
          = false) as -> by (apply Nat.leb_gt; lia).
  done.
Qed.


(** Key and value of a token of the form [key=value], and of a bare key. *)
Lemma attr_pair k v :
  k <> "" -> equals_free k = true ->
  attr_key (k +:+ String "=" v) = Some k /\
  attr_value (k +:+ String "=" v) = v.
Proof.
  intros Hne Hk. unfold attr_key, attr_value. split.
  - by apply key_read_pair.
  - by rewrite strchr_found.
Qed.

Lemma attr_bare k :
  k <> "" -> equals_free k = true -> fits_block k = true ->
  attr_key k = Some k /\ attr_value k = "".
Proof.
  intros Hne Hk Hfits. unfold attr_key, attr_value. split.
  - rewrite key_read_fits by done. rewrite <- strtok_head. unfold strtok.
    change k with ("" +:+ k). by rewrite (strtok_r_last "=").
  - by rewrite strchr_absent.
Qed.

Lemma entry_vars_member id m :
  json_object_get (entry id (Some m)) "vars" = Some (JObject m).
Proof.
  unfold entry. cbn [json_object_get fmap option_fmap option_map].
  unfold json_object_set_new at 1. rewrite utf8_vars. apply lookup_insert_eq.
Qed.

Lemma fields_of_empty : fields " " "" = [].
Proof. reflexivity. Qed.

(** The pair a well-formed token adds, read off the decoded line. *)
Lemma convert_ini_line_pair pad id rest toks1 tok toks2 k v :
  spaces_only pad = true -> id <> "" -> space_free id = true ->
  fields " " rest = toks1 ++ tok :: toks2 ->
  k <> "" -> equals_free k = true ->
  tok = k +:+ String "=" v \/ (tok = k /\ v = "" /\ fits_block k = true) ->
  utf8_check_string k = true -> utf8_check_string v = true ->
  Forall (fun t => attr_key t <> Some k) toks2 ->
  json_path (convert_ini_line (pad +:+ id +:+ " " +:+ rest)) ["vars"; k]
  = Some (JString v).
Proof.
  intros Hpad Hne Hid Hfields Hk Hequals Htok Hutfk Hutfv Hlater.
  assert (rest <> "") as Hrest.
  { intros ->. rewrite fields_of_empty in Hfields. by destruct toks1. }
  destruct (convert_ini_line_layout pad id rest Hpad Hne Hid)
    as (_ & _ & _ & Hvars).
  rewrite Hvars by done. cbn [json_path]. rewrite entry_vars_member.
  cbn [mbind option_bind json_object_get]. rewrite Hfields.
  rewrite (attributes_last_wins toks1 tok toks2 k (JString v)); [done| |done].
  unfold attribute, json_string.
  assert (attr_key tok = Some k /\ attr_value tok = v) as [-> ->].
  { destruct Htok as [->|(-> & -> & Hfits)];
      [by apply attr_pair|by apply attr_bare]. }
  by rewrite Hutfv, Hutfk.
Qed.

(** C7 (amended): a data line is split at spaces only (a tab separates
    nothing).  Its first field is the identifier.  A line that ends with
    the identifier, or with one space after it, yields no attribute mapping
    at all (no [vars] member), and that is no error.  Otherwise [vars]
    holds the pairs of the further fields.  A field [key=value], with a
    key that is not empty, adds the pair of the text before its first
    equals sign and everything after it; a field without an equals sign
    adds the pair of the field and the empty string, provided its length is
    not 24, 40, 56, ... bytes (the copy of lines 97-98 then keeps its
    terminator); of several fields that are filed under one key the last
    decides the value.  Nothing is said of a field that starts with an
    equals sign, nor of the key of a field that fills its block.  (jansson
    drops an identifier, key or value that is not valid UTF-8.) *)
Theorem entry_decoder (pad id rest : string) :
  spaces_only pad = true -> id <> "" -> space_free id = true ->
  convert_ini_line (pad +:+ id) = entry (Some id) None /\
  convert_ini_line (pad +:+ id +:+ " ") = entry (Some id) None /\
  (rest <> "" ->
   convert_ini_line (pad +:+ id +:+ " " +:+ rest)
   = entry (Some id) (Some (attributes (fields " " rest)))) /\
  (forall toks1 tok toks2 k v,
     fields " " rest = toks1 ++ tok :: toks2 ->
     k <> "" -> equals_free k = true ->
     tok = k +:+ String "=" v \/ (tok = k /\ v = "" /\ fits_block k = true) ->
     utf8_check_string k = true -> utf8_check_string v = true ->
     Forall (fun t => attr_key t <> Some k) toks2 ->
     json_path (convert_ini_line (pad +:+ id +:+ " " +:+ rest)) ["vars"; k]
     = Some (JString v)) /\
  (forall k v, k <> "" -> equals_free k = true ->
     attr_key (k +:+ String "=" v) = Some k /\
     attr_value (k +:+ String "=" v) = v) /\
  (forall k, k <> "" -> equals_free k = true -> fits_block k = true ->
     attr_key k = Some k /\ attr_value k = "") /\
  (forall toks1 tok toks2 k v,
     attribute tok = Some (k, v) ->
     Forall (fun t => attr_key t <> Some k) toks2 ->
     attributes (toks1 ++ tok :: toks2) !! k = Some v) /\
  convert_ini_line "web1 env=prod role=app"
  = JObject {[ "hostname" := JString "web1";
               "vars" := JObject {[ "env" := JString "prod";
                                    "role" := JString "app" ]} ]} /\
  convert_ini_line "web1" = JObject {[ "hostname" := JString "web1" ]}.
Proof.
  intros Hpad Hne Hid.
  destruct (convert_ini_line_layout pad id rest Hpad Hne Hid)
    as (_ & H2 & H3 & H4).
  split; [done|]. split; [done|]. split; [done|].
  split; [intros *; by apply convert_ini_line_pair|].
  split; [apply attr_pair|]. split; [apply attr_bare|].
  split; [apply attributes_last_wins|]. split; vm_compute; reflexivity.
Qed.

(* ===================================================================== *)
(** ** Entries before the first header *)
(* ===================================================================== *)

Lemma json_array_append_cases array value :
  json_array_append array value = array \/
  exists v, value = Some v /\ json_array_append array value = array ++ [v].
Proof. destruct value as [v|]; [right; by exists v|by left]. Qed.

Lemma ungrouped_entry_hosts st line :
  ungrouped_hosts (ungrouped_entry st line) = ungrouped_hosts st \/
  exists h, head (fields " " line) = Some h /\
    ungrouped_hosts (ungrouped_entry st line) = ungrouped_hosts st ++ [JString h].
Proof.
  unfold ungrouped_entry. cbn [ungrouped_hosts].
  rewrite convert_ini_line_hostname.
  destruct (head (fields " " line)) as [h|]; [|by left].
  destruct (json_string (Some h)) as [j|] eqn:Hj; [|by left].
  apply json_string_valid in Hj as [-> _]. right. by exists h.
Qed.

Lemma first_header_fields st c0 :
  root (first_header st c0) = root st /\
  all_children (first_header st c0) = all_children st /\
  ungrouped_hosts (first_header st c0) = ungrouped_hosts st /\
  hostvars (first_header st c0) = hostvars st.
Proof. unfold first_header. by destruct (_ && _). Qed.

Lemma section_header_keeps st tail :
  ungrouped_hosts (section_header st tail) = ungrouped_hosts st /\
  hostvars (section_header st tail) = hostvars st /\
  groups_flag (section_header st tail) = groups_flag st.
Proof. unfold section_header. by destruct (root st !! _). Qed.

Lemma process_line_hosts st line :
  ungrouped_hosts (process_line st line) = ungrouped_hosts st \/
  exists h, head (fields " " line) = Some h /\
    ungrouped_hosts (process_line st line) = ungrouped_hosts st ++ [JString h].
Proof.
  destruct line as [|c0 tail]; [by left|]. unfold process_line.
  destruct (first_header_fields st c0) as (_ & _ & Hhosts & _).
  rewrite <- Hhosts.
  destruct (groups_flag (first_header st c0) =? 0)%Z;
    [apply ungrouped_entry_hosts|].
  destruct (Ascii.eqb c0 "["); [|by left].
  left. apply section_header_keeps.
Qed.

(** C6 (amended): an identifier token that contains a bracketed range is
    not expanded.  Every line adds at most one host to [ungrouped.hosts],
    and that host is the first space-separated field of the line as it is
    written; so "db-[a:c].example.com" declares the one host of that name,
    which receives the inline attributes, and the numeric forms [01:50] and
    [01:50:2] likewise stay in the name. *)
Theorem range_token_declares_one_host :
  (forall st line,
     ungrouped_hosts (process_line st line) = ungrouped_hosts st \/
     exists h, head (fields " " line) = Some h /\
       ungrouped_hosts (process_line st line)
       = ungrouped_hosts st ++ [JString h]) /\
  (let t := tree (build (text ["db-[a:c].example.com rack=7"])) in
   json_path t ["ungrouped"; "hosts"]
     = Some (JArray [JString "db-[a:c].example.com"]) /\
   json_path t ["_meta"; "hostvars"]
     = Some (JObject {[ "db-[a:c].example.com" :=
                          JObject {[ "rack" := JString "7" ]} ]})) /\
  json_path (tree (build (text ["www[01:50].example.com";
                                "www[01:50:2].example.com"])))
    ["ungrouped"; "hosts"]
  = Some (JArray [JString "www[01:50].example.com";
                  JString "www[01:50:2].example.com"]).
Proof.
  split; [apply process_line_hosts|].
  repeat split; vm_compute; reflexivity.
Qed.

(** The host variables after an entry: the line's [vars] when it declares
    [h] with some, the old ones otherwise. *)
Lemma ungrouped_entry_hostvars st line h :
  hostvars (ungrouped_entry st line) !! h =
  match declared_vars h line with
  | Some vars => Some vars
  | None => hostvars st !! h
  end.
Proof.
  unfold ungrouped_entry, declared_vars. cbn [hostvars].
  rewrite convert_ini_line_hostname.
  destruct (head (fields " " line)) as [tok|];
    [|by destruct (json_object_get _ "vars")].
  destruct (json_string (Some tok)) as [j|] eqn:Hj;
    [|by destruct (json_object_get _ "vars")].
  apply json_string_valid in Hj as [-> Hutf].
  destruct (json_object_get _ "vars") as [vars|]; [|done].
  cbn [json_string_value]. unfold json_object_set_new. rewrite Hutf.
  destruct (decide (tok = h)) as [->|Hne].
  - apply lookup_insert_eq.
  - by apply lookup_insert_ne.
Qed.

Lemma declared_vars_blank h : declared_vars h "" = None.
Proof. reflexivity. Qed.

Lemma process_line_ungrouped st line h :
  groups_flag st = 0%Z -> classify line <> GroupHeader ->
  groups_flag (process_line st line) = 0%Z /\
  hostvars (process_line st line) !! h =
  match declared_vars h line with
  | Some vars => Some vars
  | None => hostvars st !! h
  end.
Proof.
  intros Hflag Hclass. destruct line as [|c0 tail]; [done|].
  unfold process_line, first_header. cbn [classify] in Hclass.
  destruct (Ascii.eqb c0 "["); [done|].
  rewrite andb_false_r, Hflag. cbn [Z.eqb].
  split; [done|]. apply ungrouped_entry_hostvars.
Qed.

Lemma process_line_grouped st line :
  groups_flag st <> 0%Z \/ classify line = GroupHeader ->
  groups_flag (process_line st line) <> 0%Z /\
  hostvars (process_line st line) = hostvars st.
Proof.
  intros Hcase. destruct line as [|c0 tail].
  { destruct Hcase as [?|?]; done. }
  unfold process_line.
  assert (groups_flag (first_header st c0) <> 0%Z /\
          hostvars (first_header st c0) = hostvars st) as [Hflag Hvars].
  { unfold first_header. destruct (groups_flag st =? 0)%Z eqn:Hz.
    - apply Z.eqb_eq in Hz. destruct Hcase as [?|Hclass]; [done|].
      cbn [classify] in Hclass. destruct (Ascii.eqb c0 "["); [|done].
      cbn [andb set_groups_flag groups_flag hostvars]. rewrite Hz. done.
    - apply Z.eqb_neq in Hz. done. }
  destruct (groups_flag (first_header st c0) =? 0)%Z eqn:Hz;
    [by apply Z.eqb_eq in Hz|].
  destruct (Ascii.eqb c0 "["); [|done].
  destruct (section_header_keeps (first_header st c0) tail) as (_ & -> & ->).
  done.
Qed.

Lemma fold_grouped lines st :
  groups_flag st <> 0%Z ->
  hostvars (fold_left process_line lines st) = hostvars st.
Proof.
  revert st. induction lines as [|line lines IH]; intros st Hflag; [done|].
  cbn [fold_left].
  destruct (process_line_grouped st line (or_introl Hflag)) as [Hflag' <-].
  by apply IH.
Qed.

Lemma fold_ungrouped lines st h :
  groups_flag st = 0%Z ->
  hostvars (fold_left process_line lines st) !! h =
  match last (omap (declared_vars h) (before_first_header lines)) with
  | Some vars => Some vars
  | None => hostvars st !! h
  end.
Proof.
  revert st. induction lines as [|line lines IH]; intros st Hflag; [done|].
  cbn [fold_left before_first_header].
  destruct (decide (classify line = GroupHeader)) as [Hclass|Hclass].
  - rewrite Hclass. cbn [omap list_omap last].
    destruct (process_line_grouped st line (or_intror Hclass)) as [Hflag' <-].
    by rewrite fold_grouped.
  - destruct (process_line_ungrouped st line h Hflag Hclass) as [Hflag' Hvars].
    rewrite (IH _ Hflag'), Hvars.
    assert (omap (declared_vars h)
              match classify line with
              | GroupHeader => []
              | _ => line :: before_first_header lines
              end
            = from_option (fun v => [v]) [] (declared_vars h line)
              ++ omap (declared_vars h) (before_first_header lines)) as ->.
    { destruct (classify line); [|done|];
        cbn [omap list_omap]; by destruct (declared_vars h line). }
    rewrite last_app.
    destruct (last (omap _ (before_first_header lines))); [done|].
    by destruct (declared_vars h line).
Qed.

Lemma build_lines stream :
  build stream = fold_left process_line (lines_of stream) default_inventory.
Proof.
  unfold build, lines_of. generalize default_inventory.
  induction (getlines stream) as [|chunk chunks IH]; intros st; [done|].
  cbn [fold_left map]. apply IH.
Qed.

Lemma entry_hostname id vars :
  json_object_get (entry id vars) "hostname" = json_string id.
Proof.
  unfold entry. cbn [json_object_get].
  assert (json_object_set_new (∅ : gmap string json) (Some "hostname")
            (json_string id) !! "hostname" = json_string id) as Hhost.
  { unfold json_object_set_new. destruct (json_string id); [|done].
    rewrite utf8_hostname. apply lookup_insert_eq. }
  destruct vars as [m|]; [|exact Hhost].
  cbn [fmap option_fmap option_map]. unfold json_object_set_new at 1.
  rewrite utf8_vars. by rewrite lookup_insert_ne.
Qed.

Lemma entry_no_vars id : json_object_get (entry id None) "vars" = None.
Proof.
  unfold entry. cbn [json_object_get fmap option_fmap option_map].
  unfold json_object_set_new. destruct (json_string id); [|done].
  rewrite utf8_hostname. by rewrite lookup_insert_ne.
Qed.

(** Which lines declare variables for [h]: those that have more than one
    space, or anything else, after the identifier [h]. *)
Lemma declared_vars_layout h pad id rest :
  spaces_only pad = true -> id <> "" -> space_free id = true ->
  declared_vars h (pad +:+ id) = None /\
  declared_vars h (pad +:+ id +:+ " ") = None /\
  (id <> h -> declared_vars h (pad +:+ id +:+ " " +:+ rest) = None) /\
  (id = h -> rest <> "" -> utf8_check_string h = true ->
   declared_vars h (pad +:+ id +:+ " " +:+ rest)
   = Some (JObject (attributes (fields " " rest)))).
Proof.
  intros Hpad Hne Hid.
  destruct (convert_ini_line_layout pad id rest Hpad Hne Hid)
    as (_ & Hbare & Hspace & Hrest).
  unfold declared_vars. rewrite Hbare, Hspace, !entry_hostname, !entry_no_vars.
  split; [by destruct (json_string (Some id)) as [[]|]|].
  split; [by destruct (json_string (Some id)) as [[]|]|].
  split.
  - intros Hother. destruct (decide (rest = "")) as [->|Hrest'].
    + change (" " +:+ "") with " ".
      rewrite Hspace, entry_hostname, entry_no_vars.
      by destruct (json_string (Some id)) as [[]|].
    + rewrite Hrest, entry_hostname, entry_vars_member by done.
      unfold json_string. destruct (utf8_check_string id); [|done].
      by rewrite decide_False.
  - intros -> Hrest' Hutf.
    rewrite Hrest, entry_hostname, entry_vars_member by done.
    unfold json_string. rewrite Hutf. by rewrite decide_True.
Qed.

Lemma declared_vars_padding h pad :
  spaces_only pad = true -> declared_vars h pad = None.
Proof.
  intros Hpad. unfold declared_vars, convert_ini_line.
  by rewrite (strtok_r_padding " ").
Qed.

(** C3 (amended): the entry of a host in [_meta.hostvars] is the [vars]
    object that the decoder returns for the last line before the first
    group header that declares the host with something other than a single
    space behind the identifier, taken as a whole: that line decides every
    key, keys set only by earlier declarations are not retained, and the
    entry is empty when only spaces follow the identifier.  A declaration
    whose line ends with the identifier, or with one space after it, leaves
    the entry as it is; so does every line below a group header. *)
Theorem hostvars_hold_last_declaration (stream h : string) :
  json_path (tree (build stream)) ["_meta"; "hostvars"; h]
  = last (omap (declared_vars h) (before_first_header (lines_of stream))) /\
  (forall pad id rest,
     spaces_only pad = true -> id <> "" -> space_free id = true ->
     declared_vars h (pad +:+ id) = None /\
     declared_vars h (pad +:+ id +:+ " ") = None /\
     (id <> h -> declared_vars h (pad +:+ id +:+ " " +:+ rest) = None) /\
     (id = h -> rest <> "" -> utf8_check_string h = true ->
      declared_vars h (pad +:+ id +:+ " " +:+ rest)
      = Some (JObject (attributes (fields " " rest))))) /\
  (forall pad, spaces_only pad = true -> declared_vars h pad = None) /\
  json_path (tree (build (text ["web1 a=1"; "web1  "])))
    ["_meta"; "hostvars"; "web1"] = Some (JObject ∅) /\
  json_path (tree (build (text ["web1 a=1"; "web1"; "web1 "])))
    ["_meta"; "hostvars"; "web1"] = Some (JObject {[ "a" := JString "1" ]}).
Proof.
  split; [|split; [apply declared_vars_layout|split;
    [apply declared_vars_padding|split; vm_compute; reflexivity]]].
  rewrite (json_path_app _ ["_meta"; "hostvars"] [h]).
  rewrite tree_hostvars by apply build_intact.
  cbn [mbind option_bind json_path json_object_get].
  rewrite build_lines, (fold_ungrouped _ _ h) by done.
  destruct (last _); [done|].
  change (hostvars default_inventory) with (∅ : gmap string json).
  by rewrite lookup_empty.
Qed.

(* ===================================================================== *)
(** ** Section headers and the kinds of line *)
(* ===================================================================== *)

Lemma first_header_bracket st :
  groups_flag (first_header st "[") <> 0%Z.
Proof.
  unfold first_header. destruct (groups_flag st =? 0)%Z eqn:Hz.
  - apply Z.eqb_eq in Hz. cbn [andb Ascii.eqb]. cbn. rewrite Hz. done.
  - by apply Z.eqb_neq in Hz.
Qed.

Lemma process_line_header st tail :
  process_line st (String "[" tail)
  = section_header (first_header st "[") tail.
Proof.
  unfold process_line. pose proof (first_header_bracket st) as Hflag.
  apply Z.eqb_neq in Hflag. rewrite Hflag. done.
Qed.

Lemma first_header_other st c0 :
  Ascii.eqb c0 "[" = false -> first_header st c0 = st.
Proof. intros Hc. unfold first_header. by rewrite Hc, andb_false_r. Qed.

Lemma ungrouped_entry_padding st pad :
  spaces_only pad = true -> ungrouped_entry st pad = st.
Proof.
  intros Hpad. unfold ungrouped_entry.
  replace (convert_ini_line pad) with (JObject ∅).
  - by destruct st.
  - unfold convert_ini_line. by rewrite (strtok_r_padding " ").
Qed.

(** C4 (amended): a header line without its closing bracket is not
    skipped.  The whole text after the opening bracket is taken as the
    group name: when [root] has no member of that name, an empty group is
    created under it and the name is appended to [all.children]; when it
    has one, nothing is added.  The hosts of [ungrouped] and the host
    variables stay as they are.  ([sub_group] is left unassigned on this
    path.) *)
Theorem unclosed_header_names_a_group (st : inventory) (name : string) :
  all_bytes (fun c => negb (Ascii.eqb c "]")) name = true ->
  utf8_check_string name = true ->
  let st' := process_line st (String "[" name) in
  section_name name = (name, SubUninitialised) /\
  match root st !! name with
  | Some _ => root st' = root st /\ all_children st' = all_children st
  | None =>
      root st' = <[name := MValue (JObject ∅)]> (root st) /\
      all_children st' = all_children st ++ [JString name] /\
      json_object_get (tree st') name = Some (JObject ∅)
  end /\
  ungrouped_hosts st' = ungrouped_hosts st /\
  hostvars st' = hostvars st.
Proof.
  intros Hname Hutf st'. subst st'. rewrite process_line_header.
  assert (section_name name = (name, SubUninitialised)) as Hsec
    by (unfold section_name; by rewrite strchr_absent).
  destruct (first_header_fields st "[") as (Hroot & Hchildren & Hhosts & Hvars).
  destruct (section_header_keeps (first_header st "[") name) as (-> & -> & _).
  split; [done|]. split; [|done].
  rewrite tree_member. unfold section_header. rewrite Hsec, Hroot.
  cbn [fst]. destruct (root st !! name) eqn:Hlook.
  - done.
  - cbn [root all_children]. unfold json_object_set_new, json_string.
    rewrite Hutf, Hchildren. repeat split.
    by rewrite lookup_insert_eq.
Qed.

(** C8 (amended): the loop takes a line for blank if and only if it is
    empty, for a group header if and only if its first byte is the opening
    bracket, and for a data line otherwise; surrounding spaces are not
    trimmed.  A blank line is skipped, a header goes to the section code
    with the flag set, a data line is decoded while no header has been
    seen and dropped afterwards.  A line of only spaces is a data line that
    leaves the tree as it is, and a header preceded by spaces is a data
    line. *)
Theorem line_classes (st : inventory) (line : string) :
  (classify line = Blank <-> line = "") /\
  (classify line = GroupHeader <-> exists tail, line = String "[" tail) /\
  process_line st line =
    match classify line with
    | Blank => st
    | GroupHeader =>
        section_header (first_header st "[") (after_first_byte line)
    | DataLine =>
        if (groups_flag st =? 0)%Z then ungrouped_entry st line else st
    end /\
  (spaces_only line = true -> process_line st line = st) /\
  classify "   " = DataLine /\
  classify " [web]" = DataLine.
Proof.
  split; [|split; [|split; [|split; [|done]]]].
  - destruct line as [|c0 tail]; [done|]. cbn [classify].
    by destruct (Ascii.eqb c0 "[").
  - destruct line as [|c0 tail]; cbn [classify].
    + split; [done|]. by intros [tail [=]].
    + destruct (Ascii.eqb c0 "[") eqn:Hc.
      * apply Ascii.eqb_eq in Hc as ->. split; [by exists tail|done].
      * split; [done|]. intros [tail' [= -> _]]. done.
  - destruct line as [|c0 tail]; [done|]. cbn [classify].
    destruct (Ascii.eqb c0 "[") eqn:Hc.
    + apply Ascii.eqb_eq in Hc as ->. apply process_line_header.
    + unfold process_line. rewrite first_header_other, Hc by done.
      by destruct (groups_flag st =? 0)%Z.
  - intros Hpad. destruct line as [|c0 tail]; [done|].
    pose proof Hpad as Hc. cbn [spaces_only all_bytes] in Hc.
    apply andb_true_iff in Hc as [Hc%Ascii.eqb_eq _]. subst c0.
    unfold process_line. rewrite first_header_other by done.
    rewrite ungrouped_entry_padding by done.
    by destruct (groups_flag st =? 0)%Z.
Qed.

(* ===================================================================== *)
(** ** Further properties: the command line *)
(* ===================================================================== *)





(* ===================================================================== *)
(** ** Further properties: section headers *)
(* ===================================================================== *)

Lemma append_assoc s1 s2 s3 : (s1 +:+ s2) +:+ s3 = s1 +:+ s2 +:+ s3.
Proof.
  induction s1 as [|c s1 IH]; [done|]. by rewrite !append_cons, IH.
Qed.

Lemma all_bytes_append p s1 s2 :
  all_bytes p (s1 +:+ s2) = all_bytes p s1 && all_bytes p s2.
Proof.
  induction s1 as [|c s1 IH]; [done|].
  rewrite append_cons. cbn [all_bytes]. by rewrite IH, andb_assoc.
Qed.

Lemma section_name_plain g junk :
  colon_free g = true -> bracket_free g = true ->
  section_name (g +:+ "]" +:+ junk) = (g, SubNull).
Proof.
  intros Hcolon Hbracket. unfold section_name.
  change ("]" +:+ junk) with (String "]" junk).
  rewrite strchr_found by done. by rewrite strchr_absent.
Qed.

Lemma section_name_sub g sub junk :
  colon_free g = true -> bracket_free g = true -> bracket_free sub = true ->
  section_name (g +:+ ":" +:+ sub +:+ "]" +:+ junk) = (g, SubAt sub).
Proof.
  intros Hcolon Hbracket Hsub. unfold section_name.
  change ("]" +:+ junk) with (String "]" junk).
  change (":" +:+ sub +:+ String "]" junk)
    with (String ":" sub +:+ String "]" junk).
  rewrite <- append_assoc. rewrite strchr_found.
  - by rewrite strchr_found.
  - unfold bracket_free in *. rewrite all_bytes_append, Hbracket.
    cbn [all_bytes andb]. by rewrite Hsub.
Qed.

(** X3: The header decoder of lines 200-213: the group name is the text
    between the opening bracket and the first colon or closing bracket; the
    subsection is the text between that colon and the closing bracket, and
    is NULL when there is no colon.  What follows the closing bracket is
    dropped. *)
Theorem section_name_decodes (g sub junk : string) :
  colon_free g = true -> bracket_free g = true -> bracket_free sub = true ->
  section_name (g +:+ "]" +:+ junk) = (g, SubNull) /\
  section_name (g +:+ ":" +:+ sub +:+ "]" +:+ junk) = (g, SubAt sub).
Proof.
  intros Hcolon Hbracket Hsub.
  split; [by apply section_name_plain|by apply section_name_sub].
Qed.

Lemma section_header_same_name st tail1 tail2 :
  fst (section_name tail1) = fst (section_name tail2) ->
  section_header st tail1 = section_header st tail2.
Proof. intros Heq. unfold section_header. by rewrite Heq. Qed.

Lemma subsection_same_group st g sub junk :
  colon_free g = true -> bracket_free g = true -> bracket_free sub = true ->
  process_line st ("[" +:+ g +:+ ":" +:+ sub +:+ "]" +:+ junk)
  = process_line st ("[" +:+ g +:+ "]").
Proof.
  intros Hcolon Hbracket Hsub.
  change ("[" +:+ g +:+ ":" +:+ sub +:+ "]" +:+ junk)
    with (String "[" (g +:+ ":" +:+ sub +:+ "]" +:+ junk)).
  change ("[" +:+ g +:+ "]") with (String "[" (g +:+ "]" +:+ "")).
  rewrite !process_line_header. apply section_header_same_name.
  by rewrite section_name_sub, section_name_plain.
Qed.

(** X4: The subsection of a header has no effect on the tree: a header with
    [:vars], [:children] or any other subsection, and with any text behind
    the closing bracket, does exactly what the plain header of the group
    does. *)
Theorem subsection_is_ignored (st : inventory) (g sub junk : string) :
  colon_free g = true -> bracket_free g = true -> bracket_free sub = true ->
  process_line st ("[" +:+ g +:+ ":" +:+ sub +:+ "]" +:+ junk)
  = process_line st ("[" +:+ g +:+ "]").
Proof.
  intros Hcolon Hbracket Hsub. by apply subsection_same_group.
Qed.

Lemma first_header_set st c0 :
  groups_flag st <> 0%Z -> first_header st c0 = st.
Proof.
  intros Hflag. unfold first_header.
  apply Z.eqb_neq in Hflag. by rewrite Hflag.
Qed.

Lemma section_header_twice st tail :
  section_header (section_header st tail) tail = section_header st tail.
Proof.
  unfold section_header at 2 3.
  destruct (root st !! fst (section_name tail)) eqn:Hlook.
  - unfold section_header. by rewrite Hlook.
  - unfold section_header. cbn [root all_children ungrouped_hosts hostvars
      groups_flag].
    unfold json_object_set_new, json_string.
    destruct (utf8_check_string (fst (section_name tail))).
    + by rewrite lookup_insert_eq.
    + rewrite Hlook. unfold json_array_append. done.
Qed.

(** X5: Declaring a group again changes nothing: a header line met a second
    time leaves the store exactly as the first one left it. *)
Theorem repeated_header_is_idempotent (st : inventory) (tail : string) :
  process_line (process_line st (String "[" tail)) (String "[" tail)
  = process_line st (String "[" tail).
Proof.
  rewrite !process_line_header.
  rewrite (first_header_set (section_header _ _)).
  - apply section_header_twice.
  - destruct (section_header_keeps (first_header st "[") tail)
      as (_ & _ & ->).
    apply first_header_bracket.
Qed.

(** *** The children of [all] and the members of [root] *)

Lemma default_root :
  root default_inventory
  = <["ungrouped" := MUngrouped]> (<["all" := MAll]> (<["_meta" := MMeta]> ∅)).
Proof. reflexivity. Qed.

Lemma default_children_index : children_index_root default_inventory.
Proof.
  split.
  - rewrite default_children. apply NoDup_singleton.
  - intros k. rewrite default_root, default_children.
    rewrite !lookup_insert_is_Some, lookup_empty, list_elem_of_singleton.
    split.
    + intros [<-|[_ [<-|[_ [<-|[_ [? [=]]]]]]]]; auto.
    + intros [->|[->|[= ->]]].
      * right. split; [done|]. right. split; [done|]. by left.
      * right. split; [done|]. by left.
      * by left.
Qed.

Lemma section_header_children_index st tail :
  children_index_root st -> children_index_root (section_header st tail).
Proof.
  intros [Hnodup Hkeys]. unfold section_header.
  destruct (root st !! fst (section_name tail)) eqn:Hlook; [done|].
  set (g := fst (section_name tail)) in *.
  unfold children_index_root. cbn [root all_children].
  unfold json_object_set_new, json_string, json_array_append.
  destruct (utf8_check_string g); [|done].
  assert (JString g ∉ all_children st) as Hfresh.
  { intros Hin. assert (is_Some (root st !! g)) as [m Hm]
      by (apply Hkeys; auto). congruence. }
  split.
  - apply NoDup_app. split; [done|]. split; [|apply NoDup_singleton].
    intros x Hx ->%list_elem_of_singleton. done.
  - intros k. rewrite lookup_insert_is_Some, Hkeys, elem_of_app,
      list_elem_of_singleton.
    split.
    + intros [<-|[_ [?|[?|?]]]]; auto.
    + intros [?|[?|[?|[= ->]]]].
      * destruct (decide (g = k)); [by left|right; auto].
      * destruct (decide (g = k)); [by left|right; auto].
      * destruct (decide (g = k)); [by left|right; auto].
      * by left.
Qed.

Lemma process_line_children_index st line :
  children_index_root st -> children_index_root (process_line st line).
Proof.
  intros Hst. destruct line as [|c0 tail]; [done|]. unfold process_line.
  assert (children_index_root (first_header st c0)) as Hst1.
  { unfold children_index_root.
    destruct (first_header_fields st c0) as (-> & -> & _). done. }
  destruct (groups_flag (first_header st c0) =? 0)%Z; [done|].
  destruct (Ascii.eqb c0 "["); [|done].
  by apply section_header_children_index.
Qed.

Lemma fold_step_invariant (P : inventory -> Prop) chunks st :
  (forall st line, P st -> P (process_line st line)) ->
  P st -> P (fold_left step chunks st).
Proof.
  intros Hstep. revert st.
  induction chunks as [|chunk chunks IH]; intros st Hst; [done|].
  cbn [fold_left]. apply IH. by apply Hstep.
Qed.

Lemma build_invariant (P : inventory -> Prop) stream :
  (forall st line, P st -> P (process_line st line)) ->
  P default_inventory -> P (build stream).
Proof. intros Hstep Hdefault. unfold build. by apply fold_step_invariant. Qed.

(** X6: [all.children] is an index of the tree: the array has no duplicates,
    and a key is a top-level member of the tree exactly when it is [_meta],
    [all] or listed in [all.children]. *)
Theorem children_index_the_tree (stream : string) :
  exists l,
    json_path (tree (build stream)) ["all"; "children"] = Some (JArray l) /\
    NoDup l /\
    forall k, is_Some (json_object_get (tree (build stream)) k) <->
      k = "_meta" \/ k = "all" \/ JString k ∈ l.
Proof.
  exists (all_children (build stream)).
  split; [apply tree_children, build_intact|].
  assert (children_index_root (build stream)) as [Hnodup Hkeys].
  { apply build_invariant;
      [apply process_line_children_index|apply default_children_index]. }
  split; [done|]. intros k.
  rewrite tree_member, <- Hkeys. apply fmap_is_Some.
Qed.

(** *** Groups are empty objects *)

Lemma default_members_in_place : members_in_place default_inventory.
Proof.
  intros k m. rewrite default_root.
  rewrite !lookup_insert_Some, lookup_empty.
  intros [[<- <-]|[_ [[<- <-]|[_ [[<- <-]|[_ [=]]]]]]]; done.
Qed.

Lemma section_header_members_in_place st tail :
  members_in_place st -> members_in_place (section_header st tail).
Proof.
  intros Hst. unfold section_header.
  destruct (root st !! fst (section_name tail)) eqn:Hlook; [done|].
  intros k m. cbn [root]. unfold json_object_set_new.
  destruct (utf8_check_string _); [|apply Hst].
  rewrite lookup_insert_Some. intros [[_ <-]|[_ Hk]]; [done|by apply Hst].
Qed.

Lemma process_line_members_in_place st line :
  members_in_place st -> members_in_place (process_line st line).
Proof.
  intros Hst. destruct line as [|c0 tail]; [done|]. unfold process_line.
  assert (members_in_place (first_header st c0)) as Hst1.
  { unfold members_in_place.
    destruct (first_header_fields st c0) as (-> & _). done. }
  destruct (groups_flag (first_header st c0) =? 0)%Z; [done|].
  destruct (Ascii.eqb c0 "["); [|done].
  by apply section_header_members_in_place.
Qed.

Lemma build_members_in_place stream : members_in_place (build stream).
Proof.
  apply build_invariant;
    [apply process_line_members_in_place|apply default_members_in_place].
Qed.

(** X7: A declared group never gets any content: every top-level member of the
    tree other than [_meta], [all] and [ungrouped] is the empty object. *)
Theorem groups_stay_empty (stream k : string) :
  k <> "_meta" -> k <> "all" -> k <> "ungrouped" ->
  json_object_get (tree (build stream)) k = None \/
  json_object_get (tree (build stream)) k = Some (JObject ∅).
Proof.
  intros Hmeta Hall Hungrouped. rewrite tree_member.
  destruct (root (build stream) !! k) as [m|] eqn:Hlook; [|by left].
  right. apply build_members_in_place in Hlook.
  destruct m; cbn [fmap option_fmap option_map deref]; congruence.
Qed.

(** *** Headers that name what the tree already has *)

Lemma tree_ext st1 st2 :
  root st1 = root st2 -> all_children st1 = all_children st2 ->
  ungrouped_hosts st1 = ungrouped_hosts st2 -> hostvars st1 = hostvars st2 ->
  tree st1 = tree st2.
Proof.
  intros Hroot Hchildren Hhosts Hvars. unfold tree. rewrite Hroot.
  f_equal. apply map_fmap_ext. intros k m _.
  unfold deref. by rewrite Hchildren, Hhosts, Hvars.
Qed.

Lemma header_of_existing_member st tail :
  is_Some (root st !! fst (section_name tail)) ->
  tree (process_line st (String "[" tail)) = tree st.
Proof.
  intros [m Hm]. rewrite process_line_header.
  destruct (first_header_fields st "[") as (Hroot & Hchildren & Hhosts & Hvars).
  unfold section_header. rewrite Hroot, Hm. by apply tree_ext.
Qed.

(** X8: The three default members cannot be declared as groups: the headers
    [[_meta]], [[all]] and [[ungrouped]], with or without a subsection,
    leave the tree as it is, and nothing is appended to [all.children]. *)
Theorem reserved_names_add_nothing (st : inventory) (sub : string) :
  root_intact st ->
  tree (process_line st "[_meta]") = tree st /\
  tree (process_line st "[all]") = tree st /\
  tree (process_line st "[ungrouped]") = tree st /\
  (bracket_free sub = true ->
   tree (process_line st ("[" +:+ "all" +:+ ":" +:+ sub +:+ "]")) = tree st).
Proof.
  intros (Hmeta & Hall & Hungrouped).
  split; [|split; [|split]].
  - apply header_of_existing_member.
    change (fst (section_name "_meta]")) with "_meta". by rewrite Hmeta.
  - apply header_of_existing_member.
    change (fst (section_name "all]")) with "all". by rewrite Hall.
  - apply header_of_existing_member.
    change (fst (section_name "ungrouped]")) with "ungrouped".
    by rewrite Hungrouped.
  - intros Hsub.
    change (sub +:+ "]") with (sub +:+ "]" +:+ "").
    rewrite (subsection_same_group st "all" sub "") by done.
    apply header_of_existing_member.
    change (fst (section_name ("all" +:+ "]"))) with "all". by rewrite Hall.
Qed.

(** *** [find_dict] on a parsed tree *)

(** X9: On the tree [parse_hosts_ini] returns, [find_dict] never finds a string
    under any key, so the [printf] of line 51 never runs. *)
Theorem find_dict_prints_nothing
    (fs : filesystem) (filename keyname : string) (t : json) :
  parse_hosts_ini fs filename = Some t ->
  snd (find_dict t keyname) = None.
Proof.
  unfold parse_hosts_ini, find_dict. cbn [snd].
  destruct (fs filename) as [stream|]; intros [= <-].
  - rewrite tree_member.
    destruct (root (build stream) !! keyname) as [m|] eqn:Hlook; [|done].
    apply build_members_in_place in Hlook.
    destruct m; cbn [fmap option_fmap option_map deref]; [done..|].
    by rewrite Hlook.
  - done.
Qed.

(* ===================================================================== *)
(** ** Further properties: what the loop keeps of a file *)
(* ===================================================================== *)

Lemma json_array_append_option array value :
  json_array_append array value = array ++ option_list value.
Proof. destruct value; [done|]. by rewrite app_nil_r. Qed.

Lemma ungrouped_entry_declared_host st line :
  ungrouped_hosts (ungrouped_entry st line)
  = ungrouped_hosts st ++ option_list (declared_host line).
Proof.
  unfold ungrouped_entry, declared_host. cbn [ungrouped_hosts].
  by rewrite convert_ini_line_hostname, json_array_append_option.
Qed.

Lemma process_line_ungrouped_hosts st line :
  groups_flag st = 0%Z -> classify line <> GroupHeader ->
  ungrouped_hosts (process_line st line)
  = ungrouped_hosts st ++ option_list (declared_host line).
Proof.
  intros Hflag Hclass. destruct line as [|c0 tail].
  { cbn. by rewrite app_nil_r. }
  unfold process_line, first_header. cbn [classify] in Hclass.
  destruct (Ascii.eqb c0 "["); [done|].
  rewrite andb_false_r, Hflag. cbn [Z.eqb].
  apply ungrouped_entry_declared_host.
Qed.

Lemma process_line_grouped_hosts st line :
  groups_flag st <> 0%Z \/ classify line = GroupHeader ->
  ungrouped_hosts (process_line st line) = ungrouped_hosts st.
Proof.
  intros Hcase. destruct (process_line_grouped st line Hcase) as [_ _].
  destruct line as [|c0 tail]; [done|]. unfold process_line.
  destruct (first_header_fields st c0) as (_ & _ & Hhosts & _).
  destruct (groups_flag (first_header st c0) =? 0)%Z eqn:Hz.
  - exfalso. apply Z.eqb_eq in Hz. unfold first_header in Hz.
    destruct (groups_flag st =? 0)%Z eqn:Hz0.
    + apply Z.eqb_eq in Hz0. destruct Hcase as [?|Hclass]; [done|].
      cbn [classify] in Hclass. destruct (Ascii.eqb c0 "["); [|done].
      cbn [andb set_groups_flag groups_flag] in Hz. lia.
    + apply Z.eqb_neq in Hz0. done.
  - destruct (Ascii.eqb c0 "["); [|done].
    destruct (section_header_keeps (first_header st c0) tail) as (-> & _).
    done.
Qed.

Lemma process_line_dropped st line :
  groups_flag st <> 0%Z -> classify line <> GroupHeader ->
  process_line st line = st.
Proof.
  intros Hflag Hclass. destruct line as [|c0 tail]; [done|].
  unfold process_line. rewrite first_header_set by done.
  apply Z.eqb_neq in Hflag. rewrite Hflag.
  cbn [classify] in Hclass. by destruct (Ascii.eqb c0 "[").
Qed.

Lemma fold_grouped_hosts lines st :
  groups_flag st <> 0%Z ->
  ungrouped_hosts (fold_left process_line lines st) = ungrouped_hosts st.
Proof.
  revert st. induction lines as [|line lines IH]; intros st Hflag; [done|].
  cbn [fold_left].
  destruct (process_line_grouped st line (or_introl Hflag)) as [Hflag' _].
  rewrite IH by done. apply process_line_grouped_hosts. by left.
Qed.

Lemma fold_ungrouped_hosts lines st :
  groups_flag st = 0%Z ->
  ungrouped_hosts (fold_left process_line lines st)
  = ungrouped_hosts st ++ omap declared_host (before_first_header lines).
Proof.
  revert st. induction lines as [|line lines IH]; intros st Hflag.
  { cbn. by rewrite app_nil_r. }
  cbn [fold_left before_first_header].
  destruct (decide (classify line = GroupHeader)) as [Hclass|Hclass].
  - rewrite Hclass. cbn [omap list_omap]. rewrite app_nil_r.
    destruct (process_line_grouped st line (or_intror Hclass)) as [Hflag' _].
    rewrite fold_grouped_hosts by done.
    apply process_line_grouped_hosts. by right.
  - destruct (process_line_ungrouped st line "" Hflag Hclass) as [Hflag' _].
    rewrite (IH _ Hflag'), process_line_ungrouped_hosts by done.
    rewrite <- app_assoc. f_equal.
    destruct (classify line); [|done|];
      cbn [omap list_omap]; by destruct (declared_host line).
Qed.

(** X10: [ungrouped.hosts] lists, in the order of the file and with repetitions
    kept, the first field of every line that comes before the first group
    header; nothing below a header is ever added to it. *)
Theorem ungrouped_hosts_in_file_order (stream : string) :
  json_path (tree (build stream)) ["ungrouped"; "hosts"]
  = Some (JArray (omap declared_host
                    (before_first_header (lines_of stream)))).
Proof.
  rewrite tree_hosts by apply build_intact.
  by rewrite build_lines, fold_ungrouped_hosts.
Qed.

Lemma fold_after_header lines st :
  groups_flag st <> 0%Z ->
  fold_left process_line lines st
  = fold_left process_line
      (filter (fun line => classify line = GroupHeader) lines) st.
Proof.
  revert st. induction lines as [|line lines IH]; intros st Hflag; [done|].
  destruct (decide (classify line = GroupHeader)) as [Hclass|Hclass].
  - rewrite filter_cons_True by done. cbn [fold_left]. apply IH.
    by destruct (process_line_grouped st line (or_introl Hflag)).
  - rewrite filter_cons_False by done. cbn [fold_left].
    rewrite process_line_dropped by done. by apply IH.
Qed.

Lemma fold_headers_only lines st :
  fold_left process_line lines st
  = fold_left process_line
      (before_first_header lines ++
       filter (fun line => classify line = GroupHeader)
         (from_first_header lines)) st.
Proof.
  revert st. induction lines as [|line lines IH]; intros st; [done|].
  cbn [before_first_header from_first_header].
  destruct (decide (classify line = GroupHeader)) as [Hclass|Hclass].
  - rewrite Hclass. cbn [app]. rewrite filter_cons_True by done.
    cbn [fold_left]. apply fold_after_header.
    by destruct (process_line_grouped st line (or_intror Hclass)).
  - assert (match classify line with
            | GroupHeader => []
            | _ => line :: before_first_header lines
            end = line :: before_first_header lines) as ->
      by (by destruct (classify line)).
    assert (match classify line with
            | GroupHeader => line :: lines
            | _ => from_first_header lines
            end = from_first_header lines) as ->
      by (by destruct (classify line)).
    cbn [app fold_left]. apply IH.
Qed.

(** X11: The first group header is a point of no return: from it on only header
    lines have any effect, so deleting every other line below the first
    header gives the same store, and the same tree. *)
Theorem below_first_header_only_headers_count (stream : string) :
  build stream
  = fold_left process_line
      (before_first_header (lines_of stream) ++
       filter (fun line => classify line = GroupHeader)
         (from_first_header (lines_of stream))) default_inventory.
Proof. rewrite build_lines. apply fold_headers_only. Qed.

(** *** Lines that say nothing *)

Lemma process_line_padding st pad :
  spaces_only pad = true -> process_line st pad = st.
Proof.
  intros Hpad. destruct pad as [|c0 tail]; [done|].
  pose proof Hpad as Hc. cbn [spaces_only all_bytes] in Hc.
  apply andb_true_iff in Hc as [Hc%Ascii.eqb_eq _]. subst c0.
  unfold process_line. rewrite first_header_other by done.
  rewrite ungrouped_entry_padding by done.
  by destruct (groups_flag st =? 0)%Z.
Qed.

(** X12: Empty lines and lines made of spaces can be deleted from a file, or
    added to it anywhere, without changing the result. *)
Theorem blank_lines_do_not_matter (lines : list string) (st : inventory) :
  fold_left process_line
    (filter (fun line => spaces_only line = false) lines) st
  = fold_left process_line lines st.
Proof.
  revert st. induction lines as [|line lines IH]; intros st; [done|].
  destruct (spaces_only line) eqn:Hpad.
  - rewrite filter_cons_False by (rewrite Hpad; done).
    cbn [fold_left]. by rewrite process_line_padding.
  - rewrite filter_cons_True by done. cbn [fold_left]. apply IH.
Qed.

(* ===================================================================== *)
(** ** Further properties: what the decoder can return *)
(* ===================================================================== *)






Lemma attribute_parts tok k x :
  attribute tok = Some (k, x) ->
  attr_key tok = Some k /\ x = JString (attr_value tok).
Proof.
  unfold attribute. destruct (attr_key tok) as [k'|]; [|done].
  destruct (json_string _) as [v|] eqn:Hv; [|done].
  destruct (utf8_check_string k'); [|done]. intros [= <- <-].
  by apply json_string_valid in Hv as [-> _].
Qed.

Lemma attributes_lookup toks k x :
  attributes toks !! k = Some x ->
  exists tok, tok ∈ toks /\ attribute tok = Some (k, x).
Proof.
  unfold attributes. intros Hin%elem_of_list_to_map_2.
  apply elem_of_reverse, list_elem_of_omap in Hin. done.
Qed.

(** The [vars] member of a decoded line, when there is one. *)
Lemma convert_ini_line_vars_member line vars :
  json_object_get (convert_ini_line line) "vars" = Some vars ->
  vars = JObject (attributes (fields " " (snd (strtok_r line " ")))).
Proof.
  unfold convert_ini_line. destruct (strtok_r line " ") as [key rest].
  cbn [snd]. destruct (String.eqb rest "").
  - cbn [json_object_get]. unfold json_object_set_new.
    destruct (json_string key); [|done]. rewrite utf8_hostname.
    rewrite lookup_insert_ne by done. done.
  - cbn [json_object_get]. unfold json_object_set_new at 1.
    rewrite utf8_vars, lookup_insert_eq, convert_ini_line_vars.
    by intros [= <-].
Qed.

Lemma strtok_r_rest_pieces p d s :
  all_bytes p s = true -> all_bytes p (snd (strtok_r s (String d ""))) = true.
Proof.
  intros Hs. unfold strtok_r.
  assert (all_bytes p (skip_delims (String d "") s) = true) as Hskip.
  { clear -Hs. induction s as [|c s IH]; [done|].
    cbn [all_bytes] in Hs. apply andb_true_iff in Hs as [Hc Hs].
    cbn [skip_delims]. destruct (is_delim _ c); [by apply IH|].
    cbn [all_bytes]. by rewrite Hc, Hs. }
  destruct (skip_delims (String d "") s) as [|c s1]; [done|].
  assert (forall s2, all_bytes p s2 = true ->
    all_bytes p (default "" (cut_token (String d "") s2).2) = true) as Hcut.
  { clear. induction s2 as [|a s2 IH]; [done|].
    cbn [all_bytes cut_token]. intros [Ha Hs2]%andb_true_iff.
    destruct (is_delim _ a); [done|].
    specialize (IH Hs2). by destruct (cut_token _ s2). }
  specialize (Hcut _ Hskip). by destruct (cut_token _ (String c s1)).
Qed.


(** *** Trailing spaces *)

Lemma entry_members id m :
  utf8_check_string id = true ->
  json_object_get (entry (Some id) (Some m)) "hostname" = Some (JString id) /\
  json_object_get (entry (Some id) (Some m)) "vars" = Some (JObject m).
Proof.
  intros Hutf. unfold entry, json_object_set_new, json_string.
  rewrite Hutf, utf8_hostname, utf8_vars. cbn [fmap option_fmap option_map].
  cbn [json_object_get]. split.
  - rewrite lookup_insert_ne by done. apply lookup_insert_eq.
  - apply lookup_insert_eq.
Qed.

(** X14: An identifier followed by two or more spaces is not a bare identifier:
    the decoder gives it an empty [vars] object, and so the line replaces
    whatever variables the host had by none. *)
Theorem trailing_spaces_give_empty_vars (pad id pad2 : string) :
  spaces_only pad = true -> id <> "" -> space_free id = true ->
  spaces_only pad2 = true -> pad2 <> "" ->
  convert_ini_line (pad +:+ id +:+ " " +:+ pad2) = entry (Some id) (Some ∅) /\
  (utf8_check_string id = true ->
   declared_vars id (pad +:+ id +:+ " " +:+ pad2) = Some (JObject ∅)).
Proof.
  intros Hpad Hne Hid Hpad2 Hne2.
  destruct (convert_ini_line_layout pad id pad2 Hpad Hne Hid)
    as (_ & _ & _ & Hrest).
  specialize (Hrest Hne2).
  assert (fields " " pad2 = []) as Hnone.
  { pose proof (strtok_r_fields " " pad2) as Htok.
    rewrite (strtok_r_padding " ") in Htok by done. by destruct Htok. }
  rewrite Hnone in Hrest. split; [exact Hrest|].
  intros Hutf. unfold declared_vars. rewrite Hrest.
  destruct (entry_members id (attributes []) Hutf) as [-> ->].
  by rewrite decide_True.
Qed.

(* ===================================================================== *)
(** ** Further properties: the host variables *)
(* ===================================================================== *)

Lemma attributes_string_object toks : string_object (JObject (attributes toks)).
Proof.
  exists (attributes toks). split; [done|]. intros k x Hlook.
  apply attributes_lookup in Hlook as (tok & _ & Hattr).
  apply attribute_parts in Hattr as [_ ->]. by eexists.
Qed.

Lemma ungrouped_entry_hostvars_sound st line :
  hostvars_sound st -> hostvars_sound (ungrouped_entry st line).
Proof.
  intros Hst h vars. rewrite ungrouped_entry_hostvars.
  rewrite ungrouped_entry_declared_host, elem_of_app.
  destruct (declared_vars h line) as [declared|] eqn:Hdecl.
  - intros [= <-]. unfold declared_vars in Hdecl.
    destruct (json_object_get (convert_ini_line line) "hostname")
      as [[h'| |]|] eqn:Hhost; try done.
    destruct (json_object_get (convert_ini_line line) "vars")
      as [vars|] eqn:Hvars; [|done].
    destruct (decide (h' = h)) as [->|]; [|done].
    injection Hdecl as <-. split.
    + right. unfold declared_host.
      rewrite <- convert_ini_line_hostname, Hhost. apply list_elem_of_here.
    + apply convert_ini_line_vars_member in Hvars as ->.
      apply attributes_string_object.
  - intros Hold. destruct (Hst h vars Hold) as [Hin Hobj]. auto.
Qed.

Lemma process_line_hostvars_sound st line :
  hostvars_sound st -> hostvars_sound (process_line st line).
Proof.
  intros Hst. destruct line as [|c0 tail]; [done|]. unfold process_line.
  assert (hostvars_sound (first_header st c0)) as Hst1.
  { unfold hostvars_sound.
    destruct (first_header_fields st c0) as (_ & _ & -> & ->). done. }
  destruct (groups_flag (first_header st c0) =? 0)%Z;
    [by apply ungrouped_entry_hostvars_sound|].
  destruct (Ascii.eqb c0 "["); [|done].
  unfold hostvars_sound.
  destruct (section_header_keeps (first_header st c0) tail) as (-> & -> & _).
  done.
Qed.

Lemma build_hostvars_sound stream : hostvars_sound (build stream).
Proof.
  apply build_invariant; [apply process_line_hostvars_sound|].
  intros h vars. change (hostvars default_inventory) with (∅ : gmap string json).
  by rewrite lookup_empty.
Qed.

(** X15: Every host that has an entry in [_meta.hostvars] is listed in
    [ungrouped.hosts], and its entry is an object all of whose values are
    strings. *)
Theorem hostvars_entries_are_sound (stream h : string) (vars : json) :
  json_path (tree (build stream)) ["_meta"; "hostvars"; h] = Some vars ->
  (exists l,
     json_path (tree (build stream)) ["ungrouped"; "hosts"] = Some (JArray l) /\
     JString h ∈ l) /\
  string_object vars.
Proof.
  rewrite (json_path_app _ ["_meta"; "hostvars"] [h]).
  rewrite tree_hostvars by apply build_intact.
  cbn [mbind option_bind json_path json_object_get].
  destruct (hostvars (build stream) !! h) as [vars'|] eqn:Hlook; [|done].
  intros [= <-]. destruct (build_hostvars_sound stream h vars' Hlook)
    as [Hin Hobj].
  split; [|done]. exists (ungrouped_hosts (build stream)).
  split; [apply tree_hosts, build_intact|done].
Qed.

(* ===================================================================== *)
(** ** Further properties: reading the lines *)
(* ===================================================================== *)

Lemma plain_line_cons c s :
  plain_line (String c s) = true ->
  Ascii.eqb c NUL = false /\ Ascii.eqb c LF = false /\ plain_line s = true.
Proof.
  unfold plain_line. cbn [all_bytes].
  intros [[Hnul Hlf]%andb_true_iff Hs]%andb_true_iff.
  by apply negb_true_iff in Hnul, Hlf.
Qed.

Lemma getlines_line line stream :
  plain_line line = true ->
  getlines (line +:+ String LF stream) = (line +:+ String LF "") :: getlines stream.
Proof.
  induction line as [|c line IH]; [done|].
  intros (_ & Hlf & Hline)%plain_line_cons.
  rewrite !append_cons. cbn [getlines]. by rewrite Hlf, IH.
Qed.

Lemma getlines_unterminated line :
  plain_line line = true -> line <> "" -> getlines line = [line].
Proof.
  induction line as [|c line IH]; [done|].
  intros (_ & Hlf & Hline)%plain_line_cons _.
  cbn [getlines]. rewrite Hlf.
  destruct line as [|c' line]; [done|]. by rewrite IH.
Qed.

Lemma cstr_plain line : plain_line line = true -> cstr line = line.
Proof.
  induction line as [|c line IH]; [done|].
  intros (Hnul & _ & Hline)%plain_line_cons.
  cbn [cstr]. by rewrite Hnul, IH.
Qed.

Lemma cstr_terminated line :
  plain_line line = true ->
  cstr (line +:+ String LF "") = line +:+ String LF "".
Proof.
  induction line as [|c line IH]; [done|].
  intros (Hnul & _ & Hline)%plain_line_cons.
  rewrite append_cons. cbn [cstr]. by rewrite Hnul, IH.
Qed.

Lemma last_byte_terminated line : last_byte (line +:+ String LF "") = Some LF.
Proof.
  induction line as [|c line IH]; [done|].
  rewrite append_cons. cbn [last_byte]. rewrite IH.
  by destruct line.
Qed.

Lemma drop_last_terminated line : drop_last (line +:+ String LF "") = line.
Proof.
  induction line as [|c line IH]; [done|].
  rewrite append_cons. cbn [drop_last]. rewrite IH.
  by destruct line.
Qed.

Lemma chomp_terminated line : chomp (line +:+ String LF "") = line.
Proof.
  unfold chomp. rewrite last_byte_terminated, Ascii.eqb_refl.
  apply drop_last_terminated.
Qed.

Lemma chomp_unterminated line : plain_line line = true -> chomp line = line.
Proof.
  intros Hline. unfold chomp.
  assert (forall c, last_byte line = Some c -> Ascii.eqb c LF = false) as Hlast.
  { induction line as [|a line IH]; [done|].
    apply plain_line_cons in Hline as (_ & Hlf & Hline).
    cbn [last_byte]. destruct line as [|a' line]; [by intros c [= <-]|].
    by apply IH. }
  destruct (last_byte line) as [c|]; [|done]. by rewrite (Hlast c).
Qed.

Lemma lines_of_text lines :
  Forall (fun line => plain_line line = true) lines ->
  forall tail, lines_of (text lines +:+ tail) = lines ++ lines_of tail.
Proof.
  induction 1 as [|line lines Hline _ IH]; intros tail; [done|].
  cbn [text fold_right]. fold (text lines).
  rewrite append_assoc, append_cons. unfold lines_of in *.
  rewrite getlines_line by done. cbn [map app].
  by rewrite cstr_terminated, chomp_terminated, IH.
Qed.

(** X16: The loop sees a text file line by line: for lines without NUL and
    newline bytes, a file of newline-terminated lines is read as exactly
    those lines, and a last line without its newline is read like one that
    has it. *)
Theorem file_is_read_line_by_line (lines : list string) (final : string) :
  Forall (fun line => plain_line line = true) lines ->
  plain_line final = true -> final <> "" ->
  lines_of (text lines) = lines /\
  lines_of (text lines +:+ final) = lines ++ [final] /\
  build (text lines +:+ final) = build (text (lines ++ [final])).
Proof.
  intros Hlines Hfinal Hne.
  assert (lines_of (text lines) = lines) as Hterminated.
  { rewrite <- (append_empty_r (text lines)), lines_of_text by done.
    apply app_nil_r. }
  assert (lines_of (text lines +:+ final) = lines ++ [final]) as Hopen.
  { rewrite lines_of_text by done. unfold lines_of.
    rewrite getlines_unterminated by done. cbn [map].
    by rewrite cstr_plain, chomp_unterminated. }
  split; [done|]. split; [done|].
  rewrite !build_lines, Hopen. f_equal.
  rewrite <- (append_empty_r (text (lines ++ [final]))).
  rewrite lines_of_text; [symmetry; apply app_nil_r|].
  apply Forall_app. split; [done|]. by repeat constructor.
Qed.

(* ===================================================================== *)
(** ** Further properties: no declared group is lost *)
(* ===================================================================== *)

Lemma fold_process_line_root lines st k m :
  root st !! k = Some m ->
  root (fold_left process_line lines st) !! k = Some m.
Proof.
  revert st. induction lines as [|line lines IH]; intros st Hk; [done|].
  cbn [fold_left]. by apply IH, process_line_root.
Qed.

Lemma process_line_header_member st tail :
  utf8_check_string (fst (section_name tail)) = true ->
  is_Some (root (process_line st (String "[" tail)) !! fst (section_name tail)).
Proof.
  intros Hutf. rewrite process_line_header. unfold section_header.
  destruct (root (first_header st "[") !! fst (section_name tail)) eqn:Hlook.
  - by rewrite Hlook.
  - cbn [root]. unfold json_object_set_new. rewrite Hutf.
    by rewrite lookup_insert_eq.
Qed.

Lemma build_children_index stream : children_index_root (build stream).
Proof.
  apply build_invariant;
    [apply process_line_children_index|apply default_children_index].
Qed.

(** X17: No declared group is lost: the name of every header line of the file
    (when it is valid UTF-8) is a top-level member of the tree, and, unless
    it is [_meta] or [all], it is listed in [all.children]. *)
Theorem declared_groups_are_listed (stream tail : string) :
  String "[" tail ∈ lines_of stream ->
  utf8_check_string (fst (section_name tail)) = true ->
  is_Some (json_object_get (tree (build stream)) (fst (section_name tail))) /\
  (fst (section_name tail) <> "_meta" -> fst (section_name tail) <> "all" ->
   exists l,
     json_path (tree (build stream)) ["all"; "children"] = Some (JArray l) /\
     JString (fst (section_name tail)) ∈ l).
Proof.
  intros Hin Hutf. set (g := fst (section_name tail)) in *.
  assert (is_Some (root (build stream) !! g)) as Hmember.
  { apply list_elem_of_split in Hin as (before & after & Hsplit).
    rewrite build_lines, Hsplit, fold_left_app. cbn [fold_left].
    destruct (process_line_header_member
                (fold_left process_line before default_inventory) tail Hutf)
      as [m Hm].
    exists m. by apply fold_process_line_root. }
  split.
  - rewrite tree_member. by apply fmap_is_Some.
  - intros Hmeta Hall. exists (all_children (build stream)).
    split; [apply tree_children, build_intact|].
    destruct (build_children_index stream) as [_ Hkeys].
    apply Hkeys in Hmember as [?|[?|?]]; done.
Qed.

End Heap.

(* ===================================================================== *)
(** ** Closed instances: counterexamples and witnesses *)
(* ===================================================================== *)

(** All of them are about the run on a fresh heap; none but
    [key_runs_into_the_next_chunk] meets a token that fills its block, so
    they hold for every other heap as well. *)

(** The overrun of lines 97-98 at work: a bare token of 24 bytes is filed
    under the token followed by the byte behind its block, one of 23 bytes
    under itself, and a token cut at its equals sign under its key. *)
Example key_runs_into_the_next_chunk :
  convert_ini_line fresh_heap "h kkkkkkkkkkkkkkkkkkkkkkkk"
  = entry (Some "h") (Some {[ "kkkkkkkkkkkkkkkkkkkkkkkk!" := JString "" ]}) /\
  convert_ini_line fresh_heap "h kkkkkkkkkkkkkkkkkkkkkkk"
  = entry (Some "h") (Some {[ "kkkkkkkkkkkkkkkkkkkkkkk" := JString "" ]}) /\
  convert_ini_line fresh_heap "h kkkkkkkkkkkkkkkkkkkkkk=v"
  = entry (Some "h") (Some {[ "kkkkkkkkkkkkkkkkkkkkkk" := JString "v" ]}) /\
  convert_ini_line (fun _ => " =") "h kkkkkkkkkkkkkkkkkkkkkkkk"
  = entry (Some "h") (Some {[ "kkkkkkkkkkkkkkkkkkkkkkkk =" := JString "" ]}).
Proof. repeat split; vm_compute; reflexivity. Qed.

(** C1, as the specification states it, fails: the [webservers] group has
    neither [hosts] nor [vars], and [web3] has no host variables. *)
Lemma example_groups_stay_empty :
  let t := tree (build fresh_heap example_input) in
  json_path t ["webservers"] = Some (JObject ∅) /\
  json_path t ["webservers"; "hosts"] = None /\
  json_path t ["webservers"; "vars"] = None /\
  json_path t ["_meta"; "hostvars"; "web3"] = None.
Proof. repeat split; vm_compute; reflexivity. Qed.

(** C2, as the specification states it, fails: with no file to open the
    result has no [_meta], no [all] and no [ungrouped] member. *)
Lemma unopened_source_not_canonical :
  exists t, parse_hosts_ini fresh_heap no_file "hosts.ini" = Some t /\
    json_object_get t "_meta" = None /\
    json_object_get t "all" = None /\
    json_object_get t "ungrouped" = None /\
    t <> default_tree.
Proof.
  exists (JObject ∅). repeat split; try reflexivity.
  intros Heq. apply (f_equal (fun j => json_object_get j "all")) in Heq.
  vm_compute in Heq. discriminate.
Qed.

Lemma unopened_source_gives_empty_object_witness :
  no_file "hosts.ini" = None /\
  parse_hosts_ini fresh_heap no_file "hosts.ini" = Some (JObject ∅).
Proof.
  split; [reflexivity|].
  apply (unopened_source_gives_empty_object fresh_heap no_file "hosts.ini").
  reflexivity.
Defined.

(** C3, as the specification states it, fails: the second declaration of
    [web1] replaces the variables of the first, so [a], which only the
    first one sets, is gone; and a declaration below a group header does
    not count at all. *)
Lemma redeclaration_drops_earlier_keys :
  (let t := tree (build fresh_heap (text ["web1 a=1 b=2"; "web1 b=3"])) in
   json_path t ["_meta"; "hostvars"; "web1"]
     = Some (JObject {[ "b" := JString "3" ]}) /\
   json_path t ["_meta"; "hostvars"; "web1"; "a"] = None) /\
  json_path (tree (build fresh_heap (text ["web1 a=1"; "[db]"; "web1 a=2"])))
    ["_meta"; "hostvars"; "web1"]
  = Some (JObject {[ "a" := JString "1" ]}).
Proof. repeat split; vm_compute; reflexivity. Qed.

Lemma hostvars_hold_last_declaration_witness :
  declared_vars fresh_heap "web1" ("" +:+ "web1" +:+ " " +:+ "a=1 b=2")
  = Some (JObject (attributes fresh_heap ["a=1"; "b=2"])) /\
  declared_vars fresh_heap "web1" ("" +:+ "web1" +:+ " ") = None.
Proof.
  pose proof (hostvars_hold_last_declaration fresh_heap "" "web1")
    as (_ & Hlayout & _).
  destruct (Hlayout "" "web1" "a=1 b=2") as (_ & Hspace & _ & Hvars);
    [reflexivity|discriminate|reflexivity|].
  split; [|exact Hspace].
  apply Hvars; [reflexivity|discriminate|reflexivity].
Defined.

(** C4, as the specification states it, fails: the header without its
    closing bracket does create a group, named by the rest of the line, and
    that name is appended to [all.children]. *)
Lemma unclosed_header_is_not_skipped :
  let t := tree (build fresh_heap (text ["[oops"])) in
  json_path t ["oops"] = Some (JObject ∅) /\
  json_path t ["all"; "children"]
    = Some (JArray [JString "ungrouped"; JString "oops"]).
Proof. split; vm_compute; reflexivity. Qed.

Lemma unclosed_header_names_a_group_witness :
  root (process_line fresh_heap default_inventory "[oops")
    = <["oops" := MValue (JObject ∅)]> (root default_inventory) /\
  all_children (process_line fresh_heap default_inventory "[oops")
    = [JString "ungrouped"; JString "oops"].
Proof.
  pose proof (unclosed_header_names_a_group fresh_heap default_inventory "oops"
                eq_refl eq_refl) as (_ & Hnew & _).
  change (root default_inventory !! "oops") with (@None member) in Hnew.
  destruct Hnew as (Hroot & Hchildren & _). split; [exact Hroot|exact Hchildren].
Defined.

(** C5, as the specification states it, fails: [web1] has variables in
    [_meta.hostvars], yet host mode answers with the empty object. *)
Lemma host_ignores_hostvars :
  let t := tree (build fresh_heap (text ["web1 env=prod"])) in
  json_path t ["_meta"; "hostvars"; "web1"]
    = Some (JObject {[ "env" := JString "prod" ]}) /\
  host "web1" t = JObject ∅ /\
  host "web1" t <> JObject {[ "env" := JString "prod" ]}.
Proof.
  split; [vm_compute; reflexivity|]. split; [reflexivity|].
  intros Heq. apply (f_equal (fun j => json_object_get j "env")) in Heq.
  vm_compute in Heq. discriminate.
Qed.

(** C6, as the specification states it, fails: the bracketed range stays
    in the identifier, and one host is declared, not three. *)
Lemma range_is_not_expanded :
  let t := tree (build fresh_heap (text ["db-[a:c].example.com"])) in
  json_path t ["ungrouped"; "hosts"]
    = Some (JArray [JString "db-[a:c].example.com"]) /\
  json_path t ["ungrouped"; "hosts"]
    <> Some (JArray [JString "db-a.example.com"; JString "db-b.example.com";
                     JString "db-c.example.com"]).
Proof.
  assert (json_path (tree (build fresh_heap (text ["db-[a:c].example.com"])))
            ["ungrouped"; "hosts"]
          = Some (JArray [JString "db-[a:c].example.com"])) as Heq
    by (vm_compute; reflexivity).
  split; [exact Heq|]. cbv zeta. rewrite Heq. discriminate.
Qed.

(** C7, as the specification states it, fails.  A tab does not end the
    identifier; a token made of an equals sign yields no pair; and a token
    that starts with one is filed under what follows it. *)
Lemma entry_decoder_not_as_specified :
  let tabbed := "web1" +:+ String "009" "env=prod" in
  head (String.words tabbed) = Some "web1" /\
  convert_ini_line fresh_heap tabbed = entry (Some tabbed) None /\
  fields " " "web1 =" = ["web1"; "="] /\
  convert_ini_line fresh_heap "web1 =" = entry (Some "web1") (Some ∅) /\
  convert_ini_line fresh_heap "web1 =prod"
    = entry (Some "web1") (Some {[ "prod" := JString "prod" ]}).
Proof. repeat split; vm_compute; reflexivity. Qed.

Lemma entry_decoder_witness :
  (convert_ini_line fresh_heap ("" +:+ "web1" +:+ " " +:+ "env=prod =x env=test")
   = entry (Some "web1")
       (Some (attributes fresh_heap ["env=prod"; "=x"; "env=test"]))) /\
  json_path
    (convert_ini_line fresh_heap ("" +:+ "web1" +:+ " " +:+ "env=prod =x env=test"))
    ["vars"; "env"] = Some (JString "test").
Proof.
  pose proof (entry_decoder fresh_heap "" "web1" "env=prod =x env=test"
                eq_refl ltac:(discriminate) eq_refl)
    as (_ & _ & Hvars & Hpair & _).
  split; [apply Hvars; discriminate|].
  apply (Hpair ["env=prod"; "=x"] "env=test" [] "env" "test");
    [reflexivity|discriminate|reflexivity|by left|reflexivity|reflexivity|
     constructor].
Defined.

(** C8, as the specification states it, fails: nothing is trimmed.  A
    header written after a space is taken for a data line, whose identifier
    then starts with the bracket, and no group is made. *)
Lemma classifier_does_not_trim :
  skip_delims " " " [web]" = "[web]" /\
  classify " [web]" = DataLine /\
  (let t := tree (build fresh_heap (text [" [web]"])) in
   json_path t ["ungrouped"; "hosts"] = Some (JArray [JString "[web]"]) /\
   json_path t ["web"] = None /\
   json_path t ["all"; "children"] = Some (JArray [JString "ungrouped"])) /\
  skip_delims " " "   " = "" /\
  classify "   " = DataLine.
Proof. repeat split; vm_compute; reflexivity. Qed.

Lemma line_classes_witness :
  process_line fresh_heap default_inventory "   " = default_inventory.
Proof.
  apply (line_classes fresh_heap default_inventory "   "). reflexivity.
Defined.

Lemma all_children_contains_ungrouped_witness :
  only_file "" "hosts.ini" = Some "" /\
  exists t l, parse_hosts_ini fresh_heap (only_file "") "hosts.ini" = Some t /\
    json_path t ["all"; "children"] = Some (JArray l) /\
    JString "ungrouped" ∈ l.
Proof.
  split; [reflexivity|].
  apply (all_children_contains_ungrouped fresh_heap (only_file "")
           "hosts.ini" "").
  reflexivity.
Defined.

Lemma section_name_decodes_witness :
  section_name ("dbservers" +:+ "]" +:+ "") = ("dbservers", SubNull) /\
  section_name ("dbservers" +:+ ":" +:+ "children" +:+ "]" +:+ "")
  = ("dbservers", SubAt "children").
Proof.
  apply (section_name_decodes "dbservers" "children" ""); reflexivity.
Defined.

Lemma subsection_is_ignored_witness :
  process_line fresh_heap default_inventory
    ("[" +:+ "webservers" +:+ ":" +:+ "vars" +:+ "]" +:+ "")
  = process_line fresh_heap default_inventory ("[" +:+ "webservers" +:+ "]").
Proof.
  apply (subsection_is_ignored fresh_heap default_inventory
           "webservers" "vars" "");
    reflexivity.
Defined.

Lemma groups_stay_empty_witness :
  json_object_get
    (tree (build fresh_heap (text ["[web]"; "web1 a=1"; "[web:vars]"; "b=2"])))
    "web" = None \/
  json_object_get
    (tree (build fresh_heap (text ["[web]"; "web1 a=1"; "[web:vars]"; "b=2"])))
    "web" = Some (JObject ∅).
Proof.
  apply (groups_stay_empty fresh_heap
           (text ["[web]"; "web1 a=1"; "[web:vars]"; "b=2"]) "web");
    discriminate.
Defined.

Lemma reserved_names_add_nothing_witness :
  tree (process_line fresh_heap default_inventory "[ungrouped]")
  = tree default_inventory.
Proof.
  assert (root_intact default_inventory) as Hintact
    by (repeat split; vm_compute; reflexivity).
  pose proof (reserved_names_add_nothing fresh_heap default_inventory "vars"
                Hintact)
    as (_ & _ & Hungrouped & _).
  exact Hungrouped.
Defined.

Lemma find_dict_prints_nothing_witness :
  snd (find_dict (tree (build fresh_heap example_input)) "webservers") = None.
Proof.
  apply (find_dict_prints_nothing fresh_heap (only_file example_input)
           "hosts.ini").
  reflexivity.
Defined.



Lemma trailing_spaces_give_empty_vars_witness :
  convert_ini_line fresh_heap ("" +:+ "web1" +:+ " " +:+ " ")
  = entry (Some "web1") (Some ∅).
Proof.
  apply (trailing_spaces_give_empty_vars fresh_heap "" "web1" " ");
    [reflexivity|discriminate|reflexivity|reflexivity|discriminate].
Defined.

Lemma hostvars_entries_are_sound_witness :
  json_path (tree (build fresh_heap (text ["web1 env=prod"])))
    ["_meta"; "hostvars"; "web1"]
    = Some (JObject {[ "env" := JString "prod" ]}) /\
  string_object (JObject {[ "env" := JString "prod" ]}).
Proof.
  assert (json_path (tree (build fresh_heap (text ["web1 env=prod"])))
            ["_meta"; "hostvars"; "web1"]
          = Some (JObject {[ "env" := JString "prod" ]})) as Hvars
    by (vm_compute; reflexivity).
  split; [exact Hvars|].
  apply (hostvars_entries_are_sound fresh_heap (text ["web1 env=prod"]) "web1").
  exact Hvars.
Defined.

Lemma file_is_read_line_by_line_witness :
  lines_of (text ["web1 env=prod"; ""; "[webservers]"] +:+ "web2")
  = ["web1 env=prod"; ""; "[webservers]"] ++ ["web2"].
Proof.
  apply (file_is_read_line_by_line fresh_heap
           ["web1 env=prod"; ""; "[webservers]"] "web2");
    [repeat constructor|reflexivity|discriminate].
Defined.

Lemma declared_groups_are_listed_witness :
  String "[" "db:children]" ∈ lines_of (text ["web1"; "[db:children]"; "x"]) /\
  is_Some (json_object_get
             (tree (build fresh_heap (text ["web1"; "[db:children]"; "x"])))
             "db").
Proof.
  assert (String "[" "db:children]"
            ∈ lines_of (text ["web1"; "[db:children]"; "x"])) as Hin
    by (vm_compute; apply list_elem_of_further, list_elem_of_here).
  split; [exact Hin|].
  apply (declared_groups_are_listed fresh_heap
           (text ["web1"; "[db:children]"; "x"]) "db:children]" Hin).
  reflexivity.
Defined.
